(** * A verification model of [server.py]: the one-hop fallback file server

    [StorageServer] serves files of a local directory over HTTP and, on a
    local miss, asks a fixed list of neighbour nodes for the file, optionally
    saving what it fetched.  The handlers are embedded as functions of a small
    state-and-exception monad over an explicit [world] (file system, started
    threads, requests sent); the network and the iteration order of the set
    returned by [asyncio.wait] are parameters of the model.

    The library semantics assumed (aiohttp, asyncio, os.path) are the ones of
    the interpreters the program runs on (Python 3.5 to 3.10, where
    [asyncio.wait] still accepts coroutine objects).

    Scope: the file system maps a path to the bytes of the regular file
    there (a path that is a directory is outside the model); a request is a
    method among GET and POST with the segments of its path, and
    [request.match_info['file_name']] is the matched segment; tasks of one
    [asyncio.wait] run one after the other, which is enough since a fetch
    touches nothing but the network; a thread whose [open] goes through
    writes its file in one step when it ends. *)

From Stdlib Require Import ZArith String Ascii List DecimalString.
From Stdlib.Strings Require Import Byte.
From stdpp Require Import base option list gmap strings.

Open Scope Z_scope.
Open Scope string_scope.

(** ** Python values and exceptions *)

(** The values that flow through [content]: [None], a [bytes] object or a
    [str] (the placeholder of [get_from_node]). *)
Inductive pyval : Type :=
| PyNone
| PyBytes (b : list byte)
| PyStr (s : string).

(** [not content]: [None], [b''] and [''] are falsy. *)
Definition py_not (content : pyval) : bool :=
  match content with
  | PyNone => true
  | PyBytes [] => true
  | PyStr EmptyString => true
  | _ => false
  end.

Inductive exn : Type :=
| HTTPNotFound              (* aiohttp.web.HTTPNotFound *)
| HTTPMethodNotAllowed      (* raised by the router of aiohttp *)
| ValueError                (* asyncio.wait on an empty collection *)
| FileNotFoundError         (* open(path, 'rb') on a missing path *)
| ClientConnectorError      (* aiohttp: connection refused, host not resolved *)
| TimeoutError              (* asyncio.TimeoutError: the client timeout expired *)
| ServerDisconnectedError.  (* aiohttp: the peer closed the connection *)

(** [isinstance(e, ClientConnectorError)], the test of the [except] clause
    of [get_from_node]. *)
Definition is_ClientConnectorError (e : exn) : bool :=
  match e with ClientConnectorError => true | _ => false end.

Definition is_HTTPNotFound (e : exn) : bool :=
  match e with HTTPNotFound => true | _ => false end.

#[export] Instance byte_eq_decision : EqDecision byte := byte_eq_dec.

#[export] Instance pyval_eq_decision : EqDecision pyval.
Proof. solve_decision. Defined.

#[export] Instance exn_eq_decision : EqDecision exn.
Proof. solve_decision. Defined.

(** ** The world and the monad of handlers *)

Record StorageServer : Type := {
  host : string;
  port : Z;
  directory : string;
  nodes : list string;
  save_file : bool
}.

(** A request URL [http://authority/seg1/seg2]. *)
Record url : Type := Url { authority : string; segments : list string }.

(** A started [Thread(target=self._save_file, args=(content, file_name))]. *)
Record Thread : Type := {
  target_self : StorageServer;
  arg_content : pyval;
  arg_file_name : string
}.

Record world : Type := World {
  files : gmap string (list byte);   (* path |-> bytes of the file there *)
  threads : list Thread;             (* started, not yet finished *)
  sent : list url                    (* client requests issued so far *)
}.

Inductive result (A : Type) : Type :=
| Return (a : A)
| Raise (e : exn).
Arguments Return {A} a.
Arguments Raise {A} e.

#[export] Instance result_eq_decision {A : Type} `{EqDecision A} :
  EqDecision (result A).
Proof. solve_decision. Defined.

Definition M (A : Type) : Type := world -> result A * world.

#[export] Instance M_ret : MRet M := fun A a w => (Return a, w).

#[export] Instance M_bind : MBind M := fun A B k m w =>
  match m w with
  | (Return a, w') => k a w'
  | (Raise e, w') => (Raise e, w')
  end.

#[export] Instance M_fmap : FMap M := fun A B f m => a ← m; mret (f a).

Definition raise {A : Type} (e : exn) : M A := fun w => (Raise e, w).

(** [try: body  except: handler e]; the handler re-raises what it does not
    catch. *)
Definition try_except {A : Type} (body : M A) (handler : exn -> M A) : M A :=
  fun w =>
    match body w with
    | (Return a, w') => (Return a, w')
    | (Raise e, w') => handler e w'
    end.

(** ** The environment: network and set iteration order *)

(** What [session.get(url)] followed by [response.read()] gives. *)
Inductive http_result : Type :=
| Responded (status : Z) (body : list byte)
| Failed (e : exn).

(** The dictionary returned by [get_from_node]. *)
Record fetched : Type := { content : pyval; status_code : Z }.

#[export] Instance fetched_eq_decision : EqDecision fetched.
Proof. solve_decision. Defined.

(** The order in which a [for] loop visits the [done] set of
    [asyncio.wait]: some rearrangement of the finished tasks. *)
Record wait_order : Type := {
  reorder : list (result fetched) -> list (result fetched);
  reorder_perm : forall l : list (result fetched), Permutation (reorder l) l
}.

(** The environment of one request: the done set of each request is
    iterated in an order of its own, so two requests are given two
    environments. *)
Record environment : Type := {
  net : url -> http_result;
  order : wait_order
}.

(** ** os.path and file primitives *)

Fixpoint endswith_sep (s : string) : bool :=
  match s with
  | EmptyString => false
  | String c EmptyString => Ascii.eqb c "/"
  | String _ rest => endswith_sep rest
  end.

(** [posixpath.join(a, b)]. *)
Definition os_path_join (a b : string) : string :=
  if String.prefix "/" b then b
  else if String.eqb a "" || endswith_sep a then a ++ b
  else a ++ "/" ++ b.

Definition os_path_exists (path : string) : M bool :=
  fun w => (Return (bool_decide (is_Some (files w !! path))), w).

(** [open(path, 'rb')] and [file.read()]. *)
Definition read_all (path : string) : M (list byte) :=
  fun w =>
    match files w !! path with
    | Some b => (Return b, w)
    | None => (Raise FileNotFoundError, w)
    end.

Definition Thread_start (t : Thread) : M unit :=
  fun w => (Return tt,
            {| files := files w; threads := threads w ++ [t]; sent := sent w |}).

(** [session.get(url)] and [response.read()]: the request is recorded, the
    environment answers. *)
Definition session_get (E : environment) (u : url) : M (Z * list byte) :=
  fun w =>
    let w' := {| files := files w; threads := threads w; sent := sent w ++ [u] |} in
    match net E u with
    | Responded status body => (Return (status, body), w')
    | Failed e => (Raise e, w')
    end.

(** ** asyncio *)

(** Runs every coroutine to completion, each ending as a finished task that
    holds its value or its exception.  The coroutines are run here in the
    order of the list; [asyncio.wait] starts them in the iteration order of
    a set, so of the requests logged in [sent] only their number and their
    targets are meaningful, not the order among the requests of one
    fan-out. *)
Fixpoint run_all {A : Type} (fs : list (M A)) : M (list (result A)) :=
  match fs with
  | [] => mret []
  | f :: rest =>
      fun w =>
        let '(r, w') := f w in
        match run_all rest w' with
        | (Return rs, w'') => (Return (r :: rs), w'')
        | (Raise e, w'') => (Raise e, w'')
        end
  end.

(** [asyncio.wait(fs)] with the default [return_when=ALL_COMPLETED]:
    [ValueError] on an empty collection, otherwise [(done, pending)] with
    every task in [done]; [visit] is the order in which the set [done] will
    be iterated. *)
Definition asyncio_wait {A : Type} (visit : list (result A) -> list (result A))
    (fs : list (M A)) : M (list (result A) * list (result A)) :=
  match fs with
  | [] => raise ValueError
  | _ => tasks ← run_all fs; mret (visit tasks, [])
  end.

(** [task.result()]: the value, or the exception re-raised. *)
Definition Task_result {A : Type} (task : result A) : M A :=
  fun w => (task, w).

(** ** Responses *)

Inductive payload : Type :=
| Content (c : pyval)                      (* web.Response(body=...) *)
| Json (data : list (string * string)).    (* web.json_response(data=...) *)

Record Response : Type := {
  status : Z;
  body : payload;
  headers : list (string * string)
}.

(** The double quote character, and ['{}'.format(n)] for an integer. *)
Definition dquote : string := String (ascii_of_nat 34) EmptyString.

Definition format_int (n : Z) : string := NilZero.string_of_int (Z.to_int n).

(** ** The methods of [StorageServer] *)

Definition get_info (self : StorageServer) : M Response :=
  mret {| status := 200;
          body := Json [("address", host self ++ ":" ++ format_int (port self));
                        ("base_dir", directory self)];
          headers := [("Content-Type", "application/json; charset=utf-8")] |}.

Definition _read_file (self : StorageServer) (file_name : string) : M pyval :=
  let path := os_path_join (directory self) file_name in
  found ← os_path_exists path;
  if found : bool then b ← read_all path; mret (PyBytes b)
  else mret PyNone.

Definition _construct_file_response (file_name : string) (content : pyval)
  : Response :=
  {| status := 200;
     body := Content content;
     headers := [("CONTENT-TYPE", "application/octet-stream");
                 ("CONTENT-DISPOSITION",
                  "attachment; filename=" ++ dquote ++ file_name ++ dquote)] |}.

(** [file_name] stands for [request.match_info['file_name']]. *)
Definition get_local (self : StorageServer) (file_name : string) : M Response :=
  content ← _read_file self file_name;
  if py_not content then raise HTTPNotFound
  else mret (_construct_file_response file_name content).

Definition get_from_node (E : environment) (node file_name : string) : M fetched :=
  try_except
    (response ← session_get E (Url node ["from_node"; file_name]);
     mret {| content := PyBytes (snd response); status_code := fst response |})
    (fun e =>
       if is_ClientConnectorError e
       then mret {| content := PyStr "404: Not Found"; status_code := 404 |}
       else raise e).

(** The loop [for done_task in done] of [_get_file_content_from_nodes]. *)
Fixpoint first_200 (done : list (result fetched)) : M pyval :=
  match done with
  | [] => mret PyNone
  | done_task :: rest =>
      response ← Task_result done_task;
      if Z.eqb (status_code response) 200 then mret (content response)
      else first_200 rest
  end.

Definition _get_file_content_from_nodes
    (self : StorageServer) (E : environment) (file_name : string) : M pyval :=
  let futures := map (fun node => get_from_node E node file_name) (nodes self) in
  waited ← asyncio_wait (reorder (order E)) futures;
  first_200 (fst waited).

(** The body of the thread, for a call whose [open] goes through:
    [open(path, 'wb')] creates or truncates the file, [file.write(content)]
    stores a [bytes] object and raises [TypeError] on anything else, leaving
    the file empty.  A call whose [open] raises writes nothing; that ending
    is [Failed_open] of [Thread_finish]. *)
Definition _save_file (self : StorageServer) (content : pyval) (file_name : string)
    (fs : gmap string (list byte)) : gmap string (list byte) :=
  let path := os_path_join (directory self) file_name in
  match content with
  | PyBytes b => <[path := b]> fs
  | _ => <[path := []]> fs
  end.

Definition get_file (self : StorageServer) (E : environment) (file_name : string)
  : M Response :=
  try_except (get_local self file_name)
    (fun e =>
       if is_HTTPNotFound e then
         content ← _get_file_content_from_nodes self E file_name;
         if py_not content then raise HTTPNotFound
         else
           (if save_file self
            then Thread_start {| target_self := self;
                                 arg_content := content;
                                 arg_file_name := file_name |}
            else mret tt);;
           mret (_construct_file_response file_name content)
       else raise e).

(** [pass]: the handler returns [None]. *)
Definition post_file : M (option Response) := mret None.

(** ** Routing and the HTTP boundary *)

Inductive http_method : Type := GET | POST.

(** A request: its method and the segments of its path. *)
Record Request : Type := { req_method : http_method; req_path : list string }.

Fixpoint has_brace (s : string) : bool :=
  match s with
  | EmptyString => false
  | String c rest => Ascii.eqb c "{" || Ascii.eqb c "}" || has_brace rest
  end.

(** A segment that a [{file_name}] pattern accepts: non-empty, no brace. *)
Definition dynamic_segment (s : string) : bool :=
  negb (String.eqb s "") && negb (has_brace s).

(** The routes of [run], tried in the order they are added. *)
Definition run (self : StorageServer) (E : environment) (request : Request)
  : M (option Response) :=
  match req_method request, req_path request with
  | GET, [seg] =>
      if String.eqb seg "info" then Some <$> get_info self
      else if dynamic_segment seg then Some <$> get_file self E seg
      else raise HTTPNotFound
  | POST, [seg] =>
      if dynamic_segment seg then post_file else raise HTTPNotFound
  | GET, [seg1; seg2] =>
      if String.eqb seg1 "from_node" && dynamic_segment seg2
      then Some <$> get_local self seg2
      else raise HTTPNotFound
  | POST, [seg1; seg2] =>
      if String.eqb seg1 "from_node" && dynamic_segment seg2
      then raise HTTPMethodNotAllowed
      else raise HTTPNotFound
  | _, _ => raise HTTPNotFound
  end.

(** The status the client sees: the response's own, 404 and 405 for the
    HTTP exceptions, 504 when [asyncio.TimeoutError] leaves the handler, 500
    for any other exception or a handler that returns [None]. *)
Definition http_status {A : Type} (status_of : A -> Z) (r : result A) : Z :=
  match r with
  | Return a => status_of a
  | Raise HTTPNotFound => 404
  | Raise HTTPMethodNotAllowed => 405
  | Raise TimeoutError => 504
  | Raise _ => 500
  end.

Definition handler_status (r : result Response) : Z := http_status status r.

Definition served_status (r : result (option Response)) : Z :=
  http_status (fun o => match o with Some resp => status resp | None => 500 end) r.

(** ** Threads finishing *)

(** The effect of a started thread whose body runs to its end. *)
Definition Thread_run (t : Thread) (fs : gmap string (list byte))
  : gmap string (list byte) :=
  _save_file (target_self t) (arg_content t) (arg_file_name t) fs.

(** How the body of a thread ends: [open] and [write] went through, or
    [open] raised (a missing parent directory, a path that is a directory,
    no permission) and nothing was written.  Which of the two happens is for
    the operating system to say. *)
Inductive ending : Type := Completed | Failed_open.

(** The [i]-th started thread ends and leaves the list; its write lands
    when it ends [Completed]. *)
Definition Thread_finish (i : nat) (how : ending) (w : world) : option world :=
  match threads w !! i with
  | Some t => Some {| files := match how with
                               | Completed => Thread_run t (files w)
                               | Failed_open => files w
                               end;
                      threads := delete i (threads w);
                      sent := sent w |}
  | None => None
  end.

(** ** Startup *)

(** The keyword arguments of the call [StorageServer(host=..., port=...,
    directory=..., nodes=..., save_file=...)] of the main block; [V] is the
    type of the values that the loaded settings hold, which the main block
    passes on as they are. *)
Record constructor_args (V : Type) : Type := {
  kw_host : V;
  kw_port : V;
  kw_directory : V;
  kw_nodes : V;
  kw_save_file : V
}.
Arguments kw_host {V} _.
Arguments kw_port {V} _.
Arguments kw_directory {V} _.
Arguments kw_nodes {V} _.
Arguments kw_save_file {V} _.

Inductive startup (V : Type) : Type :=
| Constructed (args : constructor_args V)
| KeyError (key : string).
Arguments Constructed {V} args.
Arguments KeyError {V} key.

(** [settings[key]], continued with [k] when the key is there. *)
Definition subscript {V : Type} (settings : gmap string V) (key : string)
    (k : V -> startup V) : startup V :=
  match settings !! key with
  | Some v => k v
  | None => KeyError key
  end.

(** The main block from the loaded [settings] on: the five subscripts are
    evaluated in the order they are written, then the server is built. *)
Definition main_server {V : Type} (settings : gmap string V) : startup V :=
  subscript settings "host" (fun h =>
  subscript settings "port" (fun p =>
  subscript settings "directory" (fun d =>
  subscript settings "neighbors" (fun ns =>
  subscript settings "save_file" (fun sf =>
  Constructed {| kw_host := h; kw_port := p; kw_directory := d;
                 kw_nodes := ns; kw_save_file := sf |}))))).

(** The keys that the main block reads, in the order it reads them. *)
Definition settings_keys : list string :=
  ["host"; "port"; "directory"; "neighbors"; "save_file"].

(** ** What the handlers compute: the pure readings used by the proofs *)

(** The URL that [get_from_node] requests. *)
Definition peer_url (node file_name : string) : url :=
  Url node ["from_node"; file_name].

(** World [w] after the requests [us] have been issued. *)
Definition log_sent (us : list url) (w : world) : world :=
  {| files := files w; threads := threads w; sent := (sent w ++ us)%list |}.

(** World [w] after thread [t] has been started. *)
Definition log_thread (t : Thread) (w : world) : world :=
  {| files := files w; threads := (threads w ++ [t])%list; sent := sent w |}.

(** What is stored under [file_name] in the directory of [self]. *)
Definition stored (self : StorageServer) (file_name : string) (w : world) : pyval :=
  match files w !! os_path_join (directory self) file_name with
  | Some bs => PyBytes bs
  | None => PyNone
  end.

(** How a finished fetch of [node] ends. *)
Definition peer_outcome (E : environment) (node file_name : string) : result fetched :=
  match net E (peer_url node file_name) with
  | Responded st bs => Return {| content := PyBytes bs; status_code := st |}
  | Failed e =>
      if is_ClientConnectorError e
      then Return {| content := PyStr "404: Not Found"; status_code := 404 |}
      else Raise e
  end.

Definition is_found (o : fetched) : bool := Z.eqb (status_code o) 200.

(** The scan of the finished tasks, without the state. *)
Fixpoint scan (done : list (result fetched)) : result pyval :=
  match done with
  | [] => Return PyNone
  | Return o :: rest => if is_found o then Return (content o) else scan rest
  | Raise e :: _ => Raise e
  end.

(** The content of the first outcome with status 200, [None] without one. *)
Definition first_found (outcomes : list fetched) : pyval :=
  match List.find is_found outcomes with
  | Some o => content o
  | None => PyNone
  end.

Definition fallback_urls (self : StorageServer) (file_name : string) : list url :=
  map (fun node => peer_url node file_name) (nodes self).

Definition fallback_tasks (self : StorageServer) (E : environment) (file_name : string)
  : list (result fetched) :=
  map (fun node => peer_outcome E node file_name) (nodes self).

(** The finished tasks in the order the loop visits them. *)
Definition done_tasks (self : StorageServer) (E : environment) (file_name : string)
  : list (result fetched) :=
  reorder (order E) (fallback_tasks self E file_name).

(** The thread that [get_file] starts for [content]. *)
Definition save_thread (self : StorageServer) (file_name : string) (content : pyval)
  : Thread :=
  {| target_self := self; arg_content := content; arg_file_name := file_name |}.

(** The directory once [request] has been handled and every thread that the
    handler started has finished. *)
Definition files_after (self : StorageServer) (E : environment) (request : Request)
    (w : world) : gmap string (list byte) :=
  let w' := snd (run self E request w) in
  foldl (fun fs t => Thread_run t fs) (files w')
        (drop (length (threads w)) (threads w')).

(** The visit order that turns the tasks [l] into [l'] and leaves any other
    list alone. *)
Definition visit_as (l l' tasks : list (result fetched)) : list (result fetched) :=
  if decide (tasks = l) then l' else tasks.

(** ** Sample inputs *)

Definition b (s : string) : list byte := list_byte_of_string s.

Definition in_order : wait_order :=
  {| reorder := fun l => l; reorder_perm := fun l => Permutation_refl l |}.

Definition reversed : wait_order :=
  {| reorder := fun l => rev l;
     reorder_perm := fun l => Permutation_sym (Permutation_rev l) |}.

Definition two_peers : StorageServer :=
  {| host := "localhost"; port := 8080; directory := "files";
     nodes := ["a:1"; "b:2"]; save_file := true |}.

Definition empty_world : world := World ∅ [] [].

(** Peer [a:1] lacks the file, peer [b:2] has it with content [hello]. *)
Definition net_hello (u : url) : http_result :=
  if String.eqb (authority u) "a:1" then Responded 404 (b "404: Not Found")
  else if String.eqb (authority u) "b:2" then Responded 200 (b "hello")
  else Failed ClientConnectorError.

(** Both peers have the file, with different contents. *)
Definition net_divergent (u : url) : http_result :=
  if String.eqb (authority u) "a:1" then Responded 200 (b "old")
  else if String.eqb (authority u) "b:2" then Responded 200 (b "new")
  else Failed ClientConnectorError.

(** A server whose only peer lacks every file, and a directory holding one
    file of length zero. *)
Definition one_peer : StorageServer :=
  {| host := "localhost"; port := 8080; directory := "files";
     nodes := ["a:1"]; save_file := false |}.

Definition world_with (path : string) (bs : list byte) : world :=
  World {[ path := bs ]} [] [].

Definition no_peers : StorageServer :=
  {| host := "localhost"; port := 8080; directory := "files";
     nodes := []; save_file := false |}.

(** No peer can be reached. *)
Definition net_down (u : url) : http_result := Failed ClientConnectorError.

(** Peer [c:3] accepts the connection and never answers. *)
Definition net_timeout (u : url) : http_result :=
  if String.eqb (authority u) "c:3" then Failed TimeoutError else net_hello u.

(** A single peer, which times out. *)
Definition slow_peer : StorageServer :=
  {| host := "localhost"; port := 8080; directory := "files";
     nodes := ["c:3"]; save_file := false |}.

(** A peer that times out while another one has the file. *)
Definition slow_and_good : StorageServer :=
  {| host := "localhost"; port := 8080; directory := "files";
     nodes := ["c:3"; "b:2"]; save_file := false |}.

(** Values of a settings file, for the sample settings. *)
Inductive setting : Type :=
| SBool (flag : bool)
| SInt (n : Z)
| SStr (s : string)
| SList (items : list string).

(** A settings file without the [neighbors] key, and a complete one with
    a key that the program does not know. *)
Definition settings_without_neighbors : gmap string setting :=
  {[ "host" := SStr "localhost"; "port" := SInt 8080;
     "directory" := SStr "files"; "save_file" := SBool true ]}.

Definition settings_complete : gmap string setting :=
  {[ "host" := SStr "localhost"; "port" := SInt 8080;
     "directory" := SStr "files"; "neighbors" := SList ["a:1"];
     "save_file" := SBool true; "comment" := SStr "node 0" ]}.

(** The two peers again, with caching disabled. *)
Definition two_peers_no_cache : StorageServer :=
  {| host := "localhost"; port := 8080; directory := "files";
     nodes := ["a:1"; "b:2"]; save_file := false |}.

(** Peer [a:1] answers 200 with no bytes, peer [b:2] has [hello]. *)
Definition net_empty_first (u : url) : http_result :=
  if String.eqb (authority u) "a:1" then Responded 200 []
  else if String.eqb (authority u) "b:2" then Responded 200 (b "hello")
  else Failed ClientConnectorError.

(** ** The state monad: basic equations *)

Lemma log_sent_nil (w : world) : log_sent [] w = w.
Proof. destruct w as [fs ts us]. unfold log_sent; simpl. by rewrite app_nil_r. Qed.

Lemma log_sent_app (us vs : list url) (w : world) :
  log_sent vs (log_sent us w) = log_sent (us ++ vs) w.
Proof. unfold log_sent; simpl. by rewrite app_assoc. Qed.

Lemma fmap_run {A B : Type} (f : A -> B) (m : M A) (w : world) :
  (f <$> m) w =
  match m w with
  | (Return a, w') => (Return (f a), w')
  | (Raise e, w') => (Raise e, w')
  end.
Proof. unfold fmap, M_fmap, mbind, M_bind. by destruct (m w) as [[a|e] w']. Qed.

(** Every rearrangement of the finished tasks is the visit order of some
    [wait_order]: quantifying over [wait_order] covers every way the [done]
    set can be iterated. *)
Lemma every_rearrangement_is_an_order (l l' : list (result fetched)) :
  Permutation l' l -> exists ord : wait_order, reorder ord l = l'.
Proof.
  intros Hperm.
  assert (Hvisit : forall tasks, Permutation (visit_as l l' tasks) tasks).
  { intros tasks. unfold visit_as. destruct (decide (tasks = l)) as [->|_]; done. }
  exists {| reorder := visit_as l l'; reorder_perm := Hvisit |}.
  simpl. unfold visit_as. by rewrite decide_True.
Qed.

Lemma read_file_run (self : StorageServer) (file_name : string) (w : world) :
  _read_file self file_name w = (Return (stored self file_name w), w).
Proof.
  unfold _read_file, stored, mbind, M_bind, os_path_exists, read_all, mret, M_ret.
  destruct (files w !! os_path_join (directory self) file_name) as [bs|] eqn:Hfile.
  - rewrite bool_decide_eq_true_2 by eauto. by rewrite Hfile.
  - rewrite bool_decide_eq_false_2; [done|]. by intros [? ?].
Qed.

Lemma get_local_run (self : StorageServer) (file_name : string) (w : world) :
  get_local self file_name w =
  (if py_not (stored self file_name w) then Raise HTTPNotFound
   else Return (_construct_file_response file_name (stored self file_name w)), w).
Proof.
  unfold get_local, mbind, M_bind. rewrite read_file_run.
  by destruct (py_not (stored self file_name w)).
Qed.

Lemma get_from_node_run (E : environment) (node file_name : string) (w : world) :
  get_from_node E node file_name w =
  (peer_outcome E node file_name, log_sent [peer_url node file_name] w).
Proof.
  unfold get_from_node, try_except, mbind, M_bind, session_get, peer_outcome.
  fold (peer_url node file_name).
  destruct (net E (peer_url node file_name)) as [st bs|e]; [done|].
  by destruct (is_ClientConnectorError e).
Qed.

Lemma run_all_fetch (E : environment) (file_name : string) (ns : list string) (w : world) :
  run_all (map (fun node => get_from_node E node file_name) ns) w =
  (Return (map (fun node => peer_outcome E node file_name) ns),
   log_sent (map (fun node => peer_url node file_name) ns) w).
Proof.
  revert w. induction ns as [|node ns IH]; intros w; simpl.
  - by rewrite log_sent_nil.
  - rewrite get_from_node_run, IH, log_sent_app. done.
Qed.

Lemma first_200_run (done : list (result fetched)) (w : world) :
  first_200 done w = (scan done, w).
Proof.
  induction done as [|[o|e] rest IH]; simpl; [done| |done].
  unfold mbind, M_bind, Task_result, is_found.
  by destruct (Z.eqb (status_code o) 200).
Qed.

Lemma scan_returned (outcomes : list fetched) :
  scan (map Return outcomes) = Return (first_found outcomes).
Proof.
  unfold first_found.
  induction outcomes as [|o rest IH]; simpl; [done|].
  by destruct (is_found o).
Qed.

(** ** The fallback coordinator and [get_file], step by step *)

Lemma asyncio_wait_nonempty {A : Type} (visit : list (result A) -> list (result A))
    (fs : list (M A)) (w : world) :
  fs <> [] ->
  asyncio_wait visit fs w = (tasks ← run_all fs; mret (visit tasks, [])) w.
Proof. by destruct fs. Qed.

Section Coordinator.
Context (self : StorageServer) (E : environment) (file_name : string).

Lemma asyncio_wait_fetch (w : world) :
  nodes self <> [] ->
  asyncio_wait (reorder (order E))
    (map (fun node => get_from_node E node file_name) (nodes self)) w =
  (Return (done_tasks self E file_name, []), log_sent (fallback_urls self file_name) w).
Proof.
  intros Hne. rewrite asyncio_wait_nonempty.
  - unfold mbind, M_bind. rewrite run_all_fetch. done.
  - intros Hnil. apply map_eq_nil in Hnil. done.
Qed.

Lemma coordinator_empty (w : world) :
  nodes self = [] ->
  _get_file_content_from_nodes self E file_name w = (Raise ValueError, w).
Proof.
  intros Hns. unfold _get_file_content_from_nodes. rewrite Hns. done.
Qed.

Lemma coordinator_run (w : world) :
  nodes self <> [] ->
  _get_file_content_from_nodes self E file_name w =
  (scan (done_tasks self E file_name), log_sent (fallback_urls self file_name) w).
Proof.
  intros Hne. unfold _get_file_content_from_nodes, mbind, M_bind.
  rewrite asyncio_wait_fetch by done. simpl. apply first_200_run.
Qed.

Lemma get_file_local_hit (w : world) :
  py_not (stored self file_name w) = false ->
  get_file self E file_name w =
  (Return (_construct_file_response file_name (stored self file_name w)), w).
Proof.
  intros Hhit. unfold get_file, try_except. rewrite get_local_run, Hhit. done.
Qed.

Lemma get_file_local_miss (w : world) :
  py_not (stored self file_name w) = true ->
  get_file self E file_name w =
  match _get_file_content_from_nodes self E file_name w with
  | (Raise e, w1) => (Raise e, w1)
  | (Return content, w1) =>
      if py_not content then (Raise HTTPNotFound, w1)
      else (Return (_construct_file_response file_name content),
            if save_file self
            then log_thread (save_thread self file_name content) w1
            else w1)
  end.
Proof.
  intros Hmiss. unfold get_file, try_except. rewrite get_local_run, Hmiss. simpl.
  unfold mbind, M_bind.
  destruct (_get_file_content_from_nodes self E file_name w) as [[content|e] w1];
    [|done].
  destruct (py_not content); [done|].
  by destruct (save_file self).
Qed.

(** Finished tasks are the launched ones, rearranged. *)
Lemma done_tasks_perm :
  Permutation (done_tasks self E file_name) (fallback_tasks self E file_name).
Proof. apply reorder_perm. Qed.

(** When every fetch returns a dictionary, so does every finished task. *)
Lemma done_tasks_returned :
  (forall node, In node (nodes self) ->
                exists o, peer_outcome E node file_name = Return o) ->
  exists outcomes,
    done_tasks self E file_name = map Return outcomes /\
    Permutation (map Return outcomes) (fallback_tasks self E file_name).
Proof.
  intros Hall.
  assert (Hdone : Forall (fun t => exists o, t = Return o) (done_tasks self E file_name)).
  { apply List.Forall_forall. intros t Ht.
    apply (Permutation_in _ done_tasks_perm) in Ht.
    unfold fallback_tasks in Ht. apply in_map_iff in Ht as (node & <- & Hin).
    destruct (Hall node Hin) as [o Ho]. eauto. }
  pose proof done_tasks_perm as Hperm.
  revert Hdone Hperm. generalize (done_tasks self E file_name) as done.
  intros done Hdone Hperm.
  assert (exists outcomes, done = map Return outcomes) as [outcomes ->].
  { clear Hperm. induction Hdone as [|t rest [o ->] _ [outs ->]].
    - by exists [].
    - by exists (o :: outs). }
  eauto.
Qed.

End Coordinator.

(** ** Facts about outcomes *)

(** A fetch returns a dictionary unless the client fails with something
    other than [ClientConnectorError]. *)
Lemma peer_outcome_returns (E : environment) (node file_name : string) :
  (forall e, net E (peer_url node file_name) = Failed e -> e = ClientConnectorError) ->
  exists o, peer_outcome E node file_name = Return o.
Proof.
  intros Hfail. unfold peer_outcome.
  destruct (net E (peer_url node file_name)) as [st bs|e]; [eauto|].
  rewrite (Hfail e eq_refl). simpl. eauto.
Qed.

(** An outcome with status 200 carries the bytes of a peer's 200 reply. *)
Lemma found_outcome_from_reply (E : environment) (node file_name : string) (o : fetched) :
  peer_outcome E node file_name = Return o ->
  is_found o = true ->
  exists bs, net E (peer_url node file_name) = Responded 200 bs /\
             content o = PyBytes bs.
Proof.
  unfold peer_outcome, is_found.
  destruct (net E (peer_url node file_name)) as [st bs|e].
  - intros [= <-]. simpl. intros Hst. apply Z.eqb_eq in Hst as ->. eauto.
  - destruct (is_ClientConnectorError e); [|done].
    intros [= <-]. simpl. done.
Qed.

(** What the scan returns is [None] or the content of a finished task with
    status 200. *)
Lemma scan_return_inv (done : list (result fetched)) (c : pyval) :
  scan done = Return c ->
  c = PyNone \/ exists o, In (Return o) done /\ is_found o = true /\ c = content o.
Proof.
  induction done as [|[o|e] rest IH]; simpl.
  - intros [= <-]. by left.
  - destruct (is_found o) eqn:Hfound.
    + intros [= <-]. right. exists o. auto.
    + intros Hscan. destruct (IH Hscan) as [->|(o' & Hin & Hf & ->)]; [by left|].
      right. exists o'. auto.
  - done.
Qed.

(** A content selected by the coordinator is [None] or the bytes that some
    configured peer sent with status 200. *)
Lemma selected_content (self : StorageServer) (E : environment) (file_name : string)
    (c : pyval) :
  scan (done_tasks self E file_name) = Return c ->
  c = PyNone \/
  exists node bs, In node (nodes self) /\
                  net E (peer_url node file_name) = Responded 200 bs /\
                  c = PyBytes bs.
Proof.
  intros Hscan. apply scan_return_inv in Hscan as [->|(o & Hin & Hfound & ->)]; [by left|].
  right.
  apply (Permutation_in _ (done_tasks_perm self E file_name)) in Hin.
  unfold fallback_tasks in Hin. apply in_map_iff in Hin as (node & Hout & Hnode).
  destruct (found_outcome_from_reply E node file_name o Hout Hfound) as (bs & Hnet & Hc).
  exists node, bs. by rewrite Hc.
Qed.

(** With a 200 reply among the peers and every fetch returning, the scan
    finds a 200 outcome. *)
Lemma first_found_exists (outcomes : list fetched) (o : fetched) :
  In o outcomes -> is_found o = true ->
  exists o', List.find is_found outcomes = Some o'.
Proof.
  intros Hin Hfound.
  destruct (List.find is_found outcomes) as [o'|] eqn:Hfind; [eauto|].
  pose proof (find_none _ _ Hfind o Hin) as Hno. congruence.
Qed.

(** ** The fallback coordinator *)

(** The scan stops at the first outcome with status 200. *)
Lemma scan_first_found (misses : list fetched) (o : fetched)
    (rest : list (result fetched)) :
  Forall (fun m => is_found m = false) misses ->
  is_found o = true ->
  scan (map Return misses ++ Return o :: rest) = Return (content o).
Proof.
  intros Hmiss Hfound. induction Hmiss as [|m misses Hm _ IH]; simpl.
  - by rewrite Hfound.
  - by rewrite Hm.
Qed.

Lemma scan_all_missed (misses : list fetched) :
  Forall (fun m => is_found m = false) misses ->
  scan (map Return misses) = Return PyNone.
Proof.
  intros Hmiss. induction Hmiss as [|m misses Hm _ IH]; simpl; [done|].
  by rewrite Hm.
Qed.

(** What the coordinator does right, for a non-empty peer set: one
    request per configured peer is sent; [asyncio.wait] hands back every
    launched task as done and none as pending, whatever their statuses; as
    long as the tasks visited so far returned an outcome, the value is the
    content of the first done outcome with status 200, and [None] when no
    done outcome has status 200. *)
Lemma coordinator_waits_all_then_first_found
    (self : StorageServer) (E : environment) (file_name : string) (w : world) :
  nodes self <> [] ->
  exists (done : list (result fetched)) (issued : list url),
    sent (snd (_get_file_content_from_nodes self E file_name w)) =
      (sent w ++ issued)%list /\
    Permutation issued (map (fun node => peer_url node file_name) (nodes self)) /\
    fst (asyncio_wait (reorder (order E))
           (map (fun node => get_from_node E node file_name) (nodes self)) w) =
      Return (done, []) /\
    Permutation done
      (map (fun node => fst (get_from_node E node file_name w)) (nodes self)) /\
    length done = length (nodes self) /\
    (forall (misses : list fetched) (o : fetched) (rest : list (result fetched)),
        done = (map Return misses ++ Return o :: rest)%list ->
        Forall (fun m => is_found m = false) misses ->
        is_found o = true ->
        fst (_get_file_content_from_nodes self E file_name w) = Return (content o)) /\
    (forall misses : list fetched,
        done = map Return misses ->
        Forall (fun m => is_found m = false) misses ->
        fst (_get_file_content_from_nodes self E file_name w) = Return PyNone).
Proof.
  intros Hne.
  exists (done_tasks self E file_name), (fallback_urls self file_name).
  rewrite coordinator_run, asyncio_wait_fetch by done. simpl.
  assert (Htasks : map (fun node => fst (get_from_node E node file_name w)) (nodes self)
                   = fallback_tasks self E file_name).
  { unfold fallback_tasks. apply map_ext. intros node. by rewrite get_from_node_run. }
  rewrite Htasks.
  pose proof (done_tasks_perm self E file_name) as Hperm.
  repeat split; try done.
  - apply Permutation_length in Hperm. rewrite Hperm.
    unfold fallback_tasks. by rewrite length_map.
  - intros misses o rest -> Hmiss Hfound. by apply scan_first_found.
  - intros misses -> Hmiss. by apply scan_all_missed.
Qed.

(** The scan raises the first exception it meets before any outcome with
    status 200. *)
Lemma scan_raised_before_found (misses : list fetched) (e : exn)
    (rest : list (result fetched)) :
  Forall (fun m => is_found m = false) misses ->
  scan (map Return misses ++ Raise e :: rest) = Raise e.
Proof.
  intros Hmiss. induction Hmiss as [|m misses Hm _ IH]; simpl; [done|].
  by rewrite Hm.
Qed.

(** C3. What the coordinator does when a fetch that ended in an exception
    (a timeout, for one) is visited before any outcome with status 200:
    [done_task.result()] re-raises it and the exception leaves the
    coordinator, which neither returns the content of the first done outcome
    with status 200 among the tasks visited later nor returns [None]. *)
Theorem coordinator_reraises_failed_fetch
    (self : StorageServer) (E : environment) (file_name : string) (w : world)
    (misses : list fetched) (e : exn) (rest : list (result fetched)) :
  reorder (order E)
    (map (fun node => fst (get_from_node E node file_name w)) (nodes self)) =
    (map Return misses ++ Raise e :: rest)%list ->
  Forall (fun m => is_found m = false) misses ->
  nodes self <> [] /\
  fst (_get_file_content_from_nodes self E file_name w) = Raise e.
Proof.
  intros Hdone Hmiss.
  assert (Htasks : map (fun node => fst (get_from_node E node file_name w)) (nodes self)
                   = fallback_tasks self E file_name).
  { unfold fallback_tasks. apply map_ext. intros node. by rewrite get_from_node_run. }
  rewrite Htasks in Hdone. fold (done_tasks self E file_name) in Hdone.
  assert (Hne : nodes self <> []).
  { intros Hnil.
    pose proof (done_tasks_perm self E file_name) as Hperm.
    unfold fallback_tasks in Hperm. rewrite Hnil, Hdone in Hperm. simpl in Hperm.
    apply Permutation_sym, Permutation_nil in Hperm. by destruct misses. }
  split; [done|].
  rewrite coordinator_run by done. simpl.
  rewrite Hdone. by apply scan_raised_before_found.
Qed.

Lemma coordinator_reraises_failed_fetch_witness :
  nodes slow_and_good <> [] /\
  fst (_get_file_content_from_nodes slow_and_good
         {| net := net_timeout; order := in_order |} "x.txt" empty_world) =
    Raise TimeoutError.
Proof.
  apply (coordinator_reraises_failed_fetch slow_and_good
           {| net := net_timeout; order := in_order |} "x.txt" empty_world
           [] TimeoutError
           [Return {| content := PyBytes (b "hello"); status_code := 200 |}]).
  - reflexivity.
  - constructor.
Defined.

(** ** Fallback success *)



(** The route GET /{file_name} runs [get_file] for every segment that the
    pattern accepts, [info] apart. *)
Lemma run_get_file
    (self : StorageServer) (E : environment) (file_name : string) (w : world) :
  dynamic_segment file_name = true ->
  String.eqb file_name "info" = false ->
  run self E {| req_method := GET; req_path := [file_name] |} w =
  match get_file self E file_name w with
  | (Return resp, w') => (Return (Some resp), w')
  | (Raise e, w') => (Raise e, w')
  end.
Proof.
  intros Hseg Hname. unfold run. simpl. rewrite Hname, Hseg. apply fmap_run.
Qed.




(** With the same two peers, the other visit order gives the other body. *)
Example divergent_peers_either_body :
  fst (get_file two_peers {| net := net_divergent; order := in_order |}
         "x.txt" empty_world) =
    Return (_construct_file_response "x.txt" (PyBytes (b "old"))) /\
  fst (get_file two_peers {| net := net_divergent; order := reversed |}
         "x.txt" empty_world) =
    Return (_construct_file_response "x.txt" (PyBytes (b "new"))).
Proof. split; reflexivity. Qed.

(** The scenario of the specification: directory empty, peer [a:1] answers
    404, peer [b:2] answers 200 with [hello]; the answer is 200 with [hello]
    and, once the started thread has finished, the directory holds [hello]
    under the same name. *)
Example scenario_hello :
  fst (get_file two_peers {| net := net_hello; order := in_order |}
         "x.txt" empty_world) =
    Return (_construct_file_response "x.txt" (PyBytes (b "hello"))) /\
  files_after two_peers {| net := net_hello; order := in_order |}
    {| req_method := GET; req_path := ["x.txt"] |} empty_world
    !! "files/x.txt" = Some (b "hello").
Proof. split; reflexivity. Qed.

(** ** Local hit *)

(** The handler on a local hit. *)
Lemma get_file_local_hit_nonempty
    (self : StorageServer) (E : environment) (file_name : string) (w : world)
    (B : list byte) :
  files w !! os_path_join (directory self) file_name = Some B ->
  B <> [] ->
  get_file self E file_name w =
    (Return (_construct_file_response file_name (PyBytes B)), w).
Proof.
  intros Hfile HB.
  assert (Hstored : stored self file_name w = PyBytes B).
  { unfold stored. by rewrite Hfile. }
  assert (Hhit : py_not (stored self file_name w) = false).
  { rewrite Hstored. by destruct B. }
  rewrite get_file_local_hit by done. by rewrite Hstored.
Qed.

(** C2, amended. For every file name that is one path segment accepted by
    the route (not empty, no brace) and is not [info]: when the local
    directory holds the file with non-empty bytes [B], GET /{file_name}
    returns 200 with body exactly [B] and leaves the world as it was, so no
    request is sent to any peer, whatever the peer set and the network
    are. *)
Theorem route_local_hit_nonempty
    (self : StorageServer) (E : environment) (file_name : string) (w : world)
    (B : list byte) :
  dynamic_segment file_name = true ->
  String.eqb file_name "info" = false ->
  files w !! os_path_join (directory self) file_name = Some B ->
  B <> [] ->
  run self E {| req_method := GET; req_path := [file_name] |} w =
    (Return (Some (_construct_file_response file_name (PyBytes B))), w) /\
  served_status
    (fst (run self E {| req_method := GET; req_path := [file_name] |} w)) = 200 /\
  sent (snd (run self E {| req_method := GET; req_path := [file_name] |} w)) = sent w.
Proof.
  intros Hseg Hname Hfile HB.
  rewrite run_get_file by done.
  by rewrite (get_file_local_hit_nonempty self E file_name w B Hfile HB).
Qed.

Lemma route_local_hit_nonempty_witness :
  run two_peers {| net := net_divergent; order := reversed |}
    {| req_method := GET; req_path := ["x.txt"] |}
    (world_with "files/x.txt" (b "mine")) =
    (Return (Some (_construct_file_response "x.txt" (PyBytes (b "mine")))),
     world_with "files/x.txt" (b "mine")) /\
  served_status
    (fst (run two_peers {| net := net_divergent; order := reversed |}
            {| req_method := GET; req_path := ["x.txt"] |}
            (world_with "files/x.txt" (b "mine")))) = 200 /\
  sent (snd (run two_peers {| net := net_divergent; order := reversed |}
               {| req_method := GET; req_path := ["x.txt"] |}
               (world_with "files/x.txt" (b "mine")))) = [].
Proof.
  apply (route_local_hit_nonempty two_peers
           {| net := net_divergent; order := reversed |} "x.txt"
           (world_with "files/x.txt" (b "mine")) (b "mine")).
  - reflexivity.
  - reflexivity.
  - reflexivity.
  - discriminate.
Defined.

(** C2 as stated fails for a file of length zero: the local lookup counts it
    as missing, the peer is asked, and the answer is 404. *)
Lemma local_hit_fails_on_empty_file :
  ~ (forall (self : StorageServer) (E : environment) (file_name : string)
            (w : world) (B : list byte),
        files w !! os_path_join (directory self) file_name = Some B ->
        get_file self E file_name w =
          (Return (_construct_file_response file_name (PyBytes B)), w)).
Proof.
  intros Hclaim.
  specialize (Hclaim one_peer {| net := net_hello; order := in_order |}
                "e.txt" (world_with "files/e.txt" []) [] eq_refl).
  assert (Hget : get_file one_peer {| net := net_hello; order := in_order |}
                   "e.txt" (world_with "files/e.txt" []) =
                 (Raise HTTPNotFound,
                  log_sent [peer_url "a:1" "e.txt"] (world_with "files/e.txt" [])))
    by reflexivity.
  rewrite Hget in Hclaim. discriminate Hclaim.
Qed.

(** ** The empty peer set *)

(** With no configured peer, a local miss ends in the [ValueError] of
    [asyncio.wait], not in a 404. *)
Lemma get_file_no_peers
    (self : StorageServer) (E : environment) (file_name : string) (w : world) :
  nodes self = [] ->
  py_not (stored self file_name w) = true ->
  get_file self E file_name w = (Raise ValueError, w).
Proof.
  intros Hns Hmiss. rewrite get_file_local_miss by done.
  by rewrite coordinator_empty.
Qed.

(** C4. What the code does with an empty peer set and a file absent from
    the local directory: the coordinator raises the [ValueError] of
    [asyncio.wait] instead of returning [None], and the request ends as a
    server error instead of 404. *)
Theorem empty_peer_set_raises_value_error
    (self : StorageServer) (E : environment) (file_name : string) (w : world) :
  nodes self = [] ->
  files w !! os_path_join (directory self) file_name = None ->
  _get_file_content_from_nodes self E file_name w = (Raise ValueError, w) /\
  get_file self E file_name w = (Raise ValueError, w) /\
  handler_status (fst (get_file self E file_name w)) = 500.
Proof.
  intros Hns Habsent.
  assert (Hmiss : py_not (stored self file_name w) = true).
  { unfold stored. by rewrite Habsent. }
  rewrite get_file_no_peers, coordinator_empty by done. done.
Qed.

Lemma empty_peer_set_raises_value_error_witness :
  _get_file_content_from_nodes no_peers {| net := net_down; order := in_order |}
    "x.txt" empty_world = (Raise ValueError, empty_world) /\
  get_file no_peers {| net := net_down; order := in_order |} "x.txt" empty_world =
    (Raise ValueError, empty_world) /\
  handler_status
    (fst (get_file no_peers {| net := net_down; order := in_order |} "x.txt"
            empty_world)) = 500.
Proof.
  apply (empty_peer_set_raises_value_error no_peers
           {| net := net_down; order := in_order |} "x.txt" empty_world);
    reflexivity.
Defined.

(** ** A single fetch *)

Lemma get_from_node_reply (E : environment) (node file_name : string) (w : world)
    (st : Z) (bs : list byte) :
  net E (peer_url node file_name) = Responded st bs ->
  fst (get_from_node E node file_name w) =
    Return {| content := PyBytes bs; status_code := st |}.
Proof. intros Hnet. rewrite get_from_node_run. unfold peer_outcome. by rewrite Hnet. Qed.

(** A 200 reply is a found outcome with the reply's bytes; a 404 reply and a
    refused connection are outcomes that the scan passes over. *)
Lemma get_from_node_found (E : environment) (node file_name : string) (w : world)
    (bs : list byte) :
  net E (peer_url node file_name) = Responded 200 bs ->
  exists o, fst (get_from_node E node file_name w) = Return o /\
            is_found o = true /\ content o = PyBytes bs.
Proof. intros Hnet. eexists. rewrite (get_from_node_reply _ _ _ _ _ _ Hnet). done. Qed.

Lemma get_from_node_not_found (E : environment) (node file_name : string) (w : world)
    (bs : list byte) :
  net E (peer_url node file_name) = Responded 404 bs ->
  exists o, fst (get_from_node E node file_name w) = Return o /\
            is_found o = false /\ status_code o = 404.
Proof. intros Hnet. eexists. rewrite (get_from_node_reply _ _ _ _ _ _ Hnet). done. Qed.

Lemma get_from_node_connector_error (E : environment) (node file_name : string)
    (w : world) :
  net E (peer_url node file_name) = Failed ClientConnectorError ->
  fst (get_from_node E node file_name w) =
    Return {| content := PyStr "404: Not Found"; status_code := 404 |}.
Proof. intros Hnet. rewrite get_from_node_run. unfold peer_outcome. by rewrite Hnet. Qed.

(** C5. What the code does when the client fails with anything but
    [ClientConnectorError], a timeout for one: the [except] clause does not
    match, and the error leaves [get_from_node] as an exception instead of a
    miss outcome. *)
Theorem get_from_node_uncaught_error
    (E : environment) (node file_name : string) (w : world) (e : exn) :
  net E (peer_url node file_name) = Failed e ->
  is_ClientConnectorError e = false ->
  get_from_node E node file_name w =
    (Raise e, log_sent [peer_url node file_name] w).
Proof.
  intros Hnet He. rewrite get_from_node_run. unfold peer_outcome.
  by rewrite Hnet, He.
Qed.

Lemma get_from_node_uncaught_error_witness :
  get_from_node {| net := net_timeout; order := in_order |} "c:3" "x.txt" empty_world =
    (Raise TimeoutError, log_sent [peer_url "c:3" "x.txt"] empty_world).
Proof.
  apply (get_from_node_uncaught_error {| net := net_timeout; order := in_order |}
           "c:3" "x.txt" empty_world TimeoutError); reflexivity.
Defined.

(** ** The local-only endpoint *)

(** C6. GET /from_node/{file_name} is answered from the local directory
    alone: the route runs [get_local], the answer is the stored content or
    404, the world is left as it was (no request to any peer, no thread),
    and neither the neighbour list, the cache switch nor the network has
    any influence on it. *)
Theorem from_node_is_local_only
    (self : StorageServer) (E : environment) (file_name : string) (w : world) :
  let request := {| req_method := GET; req_path := ["from_node"; file_name] |} in
  run self E request w =
    (if dynamic_segment file_name then (Some <$> get_local self file_name) w
     else (Raise HTTPNotFound, w)) /\
  fst (run self E request w) =
    (if dynamic_segment file_name && negb (py_not (stored self file_name w))
     then Return (Some (_construct_file_response file_name (stored self file_name w)))
     else Raise HTTPNotFound) /\
  snd (run self E request w) = w /\
  (forall (h : string) (p : Z) (ns : list string) (sf : bool) (E' : environment),
      run {| host := h; port := p; directory := directory self;
             nodes := ns; save_file := sf |} E' request w =
      run self E request w).
Proof.
  simpl. unfold run. simpl.
  assert (Hloc : forall s : StorageServer,
             (Some <$> get_local s file_name) w =
             (if py_not (stored s file_name w) then Raise HTTPNotFound
              else Return (Some (_construct_file_response file_name
                                   (stored s file_name w))), w)).
  { intros s. unfold fmap, M_fmap, mbind, M_bind. rewrite get_local_run.
    by destruct (py_not (stored s file_name w)). }
  destruct (dynamic_segment file_name); simpl; [|done].
  rewrite Hloc.
  repeat split.
  - by destruct (py_not (stored self file_name w)).
  - intros h p ns sf E'. rewrite Hloc. done.
Qed.

(** ** Cache population *)

Lemma construct_file_response_inj (file_name : string) (c1 c2 : pyval) :
  _construct_file_response file_name c1 = _construct_file_response file_name c2 ->
  c1 = c2.
Proof. unfold _construct_file_response. by intros [= ->]. Qed.

Lemma get_local_miss_inv (self : StorageServer) (file_name : string) (w : world) :
  fst (get_local self file_name w) = Raise HTTPNotFound ->
  py_not (stored self file_name w) = true.
Proof.
  rewrite get_local_run. simpl.
  by destruct (py_not (stored self file_name w)).
Qed.

(** The effect of [_save_file] with a [bytes] argument, read back. *)
Lemma save_file_then_read (self : StorageServer) (file_name : string) (bs : list byte)
    (fs : gmap string (list byte)) :
  _save_file self (PyBytes bs) file_name fs !! os_path_join (directory self) file_name =
  Some bs.
Proof. unfold _save_file. apply lookup_insert_eq. Qed.

(** The coordinator only sends requests: files and threads stay. *)
Lemma coordinator_effect (self : StorageServer) (E : environment) (file_name : string)
    (w : world) :
  exists us, snd (_get_file_content_from_nodes self E file_name w) = log_sent us w.
Proof.
  destruct (nodes self) as [|n ns] eqn:Hns.
  - exists []. rewrite coordinator_empty by done. simpl. by rewrite log_sent_nil.
  - eexists. rewrite coordinator_run by (rewrite Hns; done). done.
Qed.

(** C7. With caching enabled, when the local lookup missed and the fallback
    answered 200 with bytes [B], [get_file] has started exactly one thread,
    [_save_file] with the same bytes and the same name; and in any later
    world where that thread is still running, once it ends with its write
    completed the local directory holds [B] under that name: [_read_file]
    returns [B] and the local lookup answers 200 with body [B]. *)
Theorem cache_write_then_local_read
    (self : StorageServer) (E : environment) (file_name : string) (w : world)
    (B : list byte) :
  save_file self = true ->
  fst (get_local self file_name w) = Raise HTTPNotFound ->
  fst (get_file self E file_name w) =
    Return (_construct_file_response file_name (PyBytes B)) ->
  threads (snd (get_file self E file_name w)) =
    (threads w ++ [save_thread self file_name (PyBytes B)])%list /\
  (forall (w2 w3 : world) (i : nat),
      threads w2 !! i = Some (save_thread self file_name (PyBytes B)) ->
      Thread_finish i Completed w2 = Some w3 ->
      files w3 !! os_path_join (directory self) file_name = Some B /\
      _read_file self file_name w3 = (Return (PyBytes B), w3) /\
      get_local self file_name w3 =
        (Return (_construct_file_response file_name (PyBytes B)), w3)).
Proof.
  intros Hsave Hlocal Hget.
  apply get_local_miss_inv in Hlocal.
  rewrite get_file_local_miss in Hget |- * by done.
  destruct (coordinator_effect self E file_name w) as [us Hw1].
  destruct (_get_file_content_from_nodes self E file_name w) as [[c|e] w1]; [|done].
  simpl in Hw1. subst w1.
  destruct (py_not c) eqn:Hc; [done|].
  simpl in Hget. injection Hget as ->.
  rewrite Hsave. simpl. split; [done|].
  intros w2 w3 i Hi. unfold Thread_finish. rewrite Hi. intros [= <-].
  assert (Hfile : files
            {| files := Thread_run (save_thread self file_name (PyBytes B)) (files w2);
               threads := delete i (threads w2); sent := sent w2 |}
            !! os_path_join (directory self) file_name = Some B).
  { simpl. unfold Thread_run. simpl. apply save_file_then_read. }
  split; [done|].
  rewrite get_local_run, read_file_run. unfold stored. rewrite Hfile.
  by destruct B.
Qed.

Lemma cache_write_then_local_read_witness :
  threads (snd (get_file two_peers {| net := net_hello; order := reversed |}
                  "x.txt" empty_world)) =
    ([] ++ [save_thread two_peers "x.txt" (PyBytes (b "hello"))])%list /\
  (forall (w2 w3 : world) (i : nat),
      threads w2 !! i = Some (save_thread two_peers "x.txt" (PyBytes (b "hello"))) ->
      Thread_finish i Completed w2 = Some w3 ->
      files w3 !! os_path_join "files" "x.txt" = Some (b "hello") /\
      _read_file two_peers "x.txt" w3 = (Return (PyBytes (b "hello")), w3) /\
      get_local two_peers "x.txt" w3 =
        (Return (_construct_file_response "x.txt" (PyBytes (b "hello"))), w3)).
Proof.
  apply (cache_write_then_local_read two_peers
           {| net := net_hello; order := reversed |} "x.txt" empty_world (b "hello"));
    reflexivity.
Defined.

(** The write of the scenario does complete in the model: the thread that
    the request started is the first of the list, and after it ended
    [Completed] the file is there. *)
Example cache_write_completes :
  exists w3,
    Thread_finish 0 Completed
      (snd (get_file two_peers {| net := net_hello; order := reversed |}
              "x.txt" empty_world)) = Some w3 /\
    files w3 !! "files/x.txt" = Some (b "hello") /\
    threads w3 = [].
Proof. eexists. repeat split. Qed.

(** ** The directory is written by cache population only *)

(** [get_file] either starts no thread, or it is the cache population of a
    successful fallback with caching enabled. *)
Lemma get_file_effect (self : StorageServer) (E : environment) (file_name : string)
    (w : world) :
  (exists us, snd (get_file self E file_name w) = log_sent us w) \/
  (exists us B,
      save_file self = true /\
      fst (get_local self file_name w) = Raise HTTPNotFound /\
      B <> [] /\
      fst (get_file self E file_name w) =
        Return (_construct_file_response file_name (PyBytes B)) /\
      snd (get_file self E file_name w) =
        log_thread (save_thread self file_name (PyBytes B)) (log_sent us w)).
Proof.
  destruct (py_not (stored self file_name w)) eqn:Hlocal.
  - rewrite get_file_local_miss by done.
    destruct (nodes self) as [|n ns] eqn:Hns.
    { left. exists []. rewrite coordinator_empty by done. simpl. by rewrite log_sent_nil. }
    rewrite coordinator_run by (rewrite Hns; done).
    destruct (scan (done_tasks self E file_name)) as [c|e] eqn:Hscan;
      [|left; eexists; done].
    destruct (py_not c) eqn:Hc; [left; eexists; done|].
    destruct (save_file self) eqn:Hsave; [|left; eexists; done].
    right.
    destruct (selected_content self E file_name c Hscan)
      as [->|(node & bs & _ & _ & ->)]; [done|].
    exists (fallback_urls self file_name), bs. repeat split; try done.
    + rewrite get_local_run. simpl. by rewrite Hlocal.
    + by destruct bs.
  - left. exists []. rewrite get_file_local_hit by done. simpl. by rewrite log_sent_nil.
Qed.

Lemma drop_own_length_app {A : Type} (l k : list A) : drop (length l) (l ++ k) = k.
Proof. induction l as [|x l IH]; simpl; [by destruct k|done]. Qed.

(** A handler that only sent requests changed neither files nor threads. *)
Lemma quiet_world (w w' : world) :
  (exists us, w' = log_sent us w) ->
  files w' = files w /\ threads w' = threads w /\
  foldl (fun fs t => Thread_run t fs) (files w')
        (drop (length (threads w)) (threads w')) = files w.
Proof. intros [us ->]. simpl. by rewrite drop_all. Qed.

Ltac quiet H := destruct (quiet_world _ _ H) as (? & ? & ?); by auto.

(** C8. Handling a request never writes the directory itself.  After the
    request and the threads it started, the directory is as before, unless
    the request was a GET /{file_name} that missed locally, got bytes [B]
    from the fallback and caching is enabled: then the only change is the
    file of that name holding [B].  So with caching disabled the directory is
    unchanged, and a name that was absent is still absent. *)
Theorem directory_written_only_by_cache_population
    (self : StorageServer) (E : environment) (request : Request) (w : world) :
  files (snd (run self E request w)) = files w /\
  ((threads (snd (run self E request w)) = threads w /\
    files_after self E request w = files w) \/
   (exists file_name B,
       request = {| req_method := GET; req_path := [file_name] |} /\
       save_file self = true /\
       fst (get_local self file_name w) = Raise HTTPNotFound /\
       fst (run self E request w) =
         Return (Some (_construct_file_response file_name (PyBytes B))) /\
       threads (snd (run self E request w)) =
         (threads w ++ [save_thread self file_name (PyBytes B)])%list /\
       files_after self E request w =
         <[os_path_join (directory self) file_name := B]> (files w))) /\
  (save_file self = false ->
   files_after self E request w = files w /\
   forall file_name,
     files w !! os_path_join (directory self) file_name = None ->
     files_after self E request w !! os_path_join (directory self) file_name = None).
Proof.
  assert (Hself : exists us, w = log_sent us w).
  { exists []. by rewrite log_sent_nil. }
  assert (Hmain :
    files (snd (run self E request w)) = files w /\
    ((threads (snd (run self E request w)) = threads w /\
      files_after self E request w = files w) \/
     (exists file_name B,
         request = {| req_method := GET; req_path := [file_name] |} /\
         save_file self = true /\
         fst (get_local self file_name w) = Raise HTTPNotFound /\
         fst (run self E request w) =
           Return (Some (_construct_file_response file_name (PyBytes B))) /\
         threads (snd (run self E request w)) =
           (threads w ++ [save_thread self file_name (PyBytes B)])%list /\
         files_after self E request w =
           <[os_path_join (directory self) file_name := B]> (files w)))).
  { unfold files_after.
    destruct request as [[|] [|seg1 [|seg2 [|seg3 rest]]]]; unfold run; simpl;
      try quiet Hself.
    - (* GET /seg1 *)
      destruct (String.eqb seg1 "info").
      { rewrite fmap_run. simpl. quiet Hself. }
      destruct (dynamic_segment seg1); [|quiet Hself].
      rewrite fmap_run.
      destruct (get_file_effect self E seg1 w)
        as [Hq|(us & B & Hsave & Hloc & HB & Hres & Hw')].
      + destruct (get_file self E seg1 w) as [[r|e] w']; simpl in *; quiet Hq.
      + destruct (get_file self E seg1 w) as [[r|e] w']; simpl in *; [|done].
        subst w'. injection Hres as ->. simpl. split; [done|].
        right. exists seg1, B. repeat split; try done.
        by rewrite drop_own_length_app.
    - (* GET /seg1/seg2 *)
      destruct (String.eqb seg1 "from_node" && dynamic_segment seg2);
        [|quiet Hself].
      rewrite fmap_run, get_local_run.
      destruct (py_not (stored self seg2 w)); simpl; quiet Hself.
    - (* POST /seg1 *)
      destruct (dynamic_segment seg1); simpl; quiet Hself.
    - (* POST /seg1/seg2 *)
      destruct (String.eqb seg1 "from_node" && dynamic_segment seg2); simpl;
        quiet Hself. }
  destruct Hmain as [Hfiles Hcases].
  split; [done|]. split; [done|].
  intros Hoff.
  assert (Hsame : files_after self E request w = files w).
  { destruct Hcases as [[_ ?]|(f & B & _ & Hon & _)]; [done|congruence]. }
  split; [done|]. intros f Habsent. by rewrite Hsame.
Qed.

(** ** Statuses seen by the client *)

(** With at least one peer and every fetch returning an outcome, a failed
    connection included, GET /{file_name} ends in 200 or 404. *)
Lemma get_file_200_or_404
    (self : StorageServer) (E : environment) (file_name : string) (w : world) :
  nodes self <> [] ->
  (forall node, In node (nodes self) ->
                exists o, peer_outcome E node file_name = Return o) ->
  handler_status (fst (get_file self E file_name w)) = 200 \/
  handler_status (fst (get_file self E file_name w)) = 404.
Proof.
  intros Hne Hall.
  destruct (py_not (stored self file_name w)) eqn:Hlocal.
  - rewrite get_file_local_miss, coordinator_run by done.
    destruct (done_tasks_returned self E file_name Hall) as (outcomes & -> & _).
    rewrite scan_returned.
    destruct (py_not (first_found outcomes)); [by right|by left].
  - rewrite get_file_local_hit by done. by left.
Qed.

(** A local miss with every peer missing the file, unreachable or answering
    with empty bytes ends in 404, when there is at least one peer. *)
Lemma get_file_total_miss
    (self : StorageServer) (E : environment) (file_name : string) (w : world) :
  py_not (stored self file_name w) = true ->
  nodes self <> [] ->
  (forall node, In node (nodes self) ->
                exists o, peer_outcome E node file_name = Return o) ->
  (forall node bs, In node (nodes self) ->
                   net E (peer_url node file_name) = Responded 200 bs -> bs = []) ->
  fst (get_file self E file_name w) = Raise HTTPNotFound.
Proof.
  intros Hlocal Hne Hall Hempty.
  rewrite get_file_local_miss, coordinator_run by done.
  destruct (done_tasks_returned self E file_name Hall) as (outcomes & Hdone & _).
  destruct (scan (done_tasks self E file_name)) as [c|e] eqn:Hscan.
  - destruct (selected_content self E file_name c Hscan)
      as [->|(node & bs & Hin & Hnet & ->)]; [done|].
    by rewrite (Hempty node bs Hin Hnet).
  - by rewrite Hdone, scan_returned in Hscan.
Qed.

(** When every finished task holds the same exception, so does the scan. *)
Lemma scan_all_raised (done : list (result fetched)) (e : exn) :
  done <> [] ->
  Forall (fun t => t = Raise e) done ->
  scan done = Raise e.
Proof. intros Hne Hall. destruct Hall as [|t rest -> _]; [done|]. done. Qed.

(** C9. What the code does on a local miss when no peer is configured, or
    when every peer's request times out: the [ValueError] of [asyncio.wait],
    or the timeout re-raised by [task.result()], leaves [get_file], and the
    request ends with a 5xx status, 500 in the first case and 504 in the
    second, neither 200 nor 404. *)
Theorem get_file_server_error
    (self : StorageServer) (E : environment) (file_name : string) (w : world) :
  fst (get_local self file_name w) = Raise HTTPNotFound ->
  nodes self = [] \/
  (forall node, In node (nodes self) ->
                net E (peer_url node file_name) = Failed TimeoutError) ->
  fst (get_file self E file_name w) =
    match nodes self with [] => Raise ValueError | _ => Raise TimeoutError end /\
  handler_status (fst (get_file self E file_name w)) =
    match nodes self with [] => 500 | _ => 504 end /\
  500 <= handler_status (fst (get_file self E file_name w)) < 600.
Proof.
  intros Hlocal Hcases. apply get_local_miss_inv in Hlocal.
  assert (Hraise : fst (get_file self E file_name w) =
            match nodes self with [] => Raise ValueError | _ => Raise TimeoutError end).
  { destruct (nodes self) as [|n ns] eqn:Hns.
    - by rewrite get_file_no_peers.
    - destruct Hcases as [|Hslow]; [done|].
      rewrite get_file_local_miss, coordinator_run by (done || by rewrite Hns).
      rewrite (scan_all_raised _ TimeoutError); [done| |].
      + pose proof (done_tasks_perm self E file_name) as Hperm.
        intros Hnil. rewrite Hnil in Hperm. apply Permutation_nil in Hperm.
        unfold fallback_tasks in Hperm. by rewrite Hns in Hperm.
      + apply List.Forall_forall. intros t Ht.
        apply (Permutation_in _ (done_tasks_perm self E file_name)) in Ht.
        unfold fallback_tasks in Ht. apply in_map_iff in Ht as (node & <- & Hin).
        unfold peer_outcome. rewrite Hslow; [done|]. by rewrite <- Hns. }
  rewrite Hraise. by destruct (nodes self).
Qed.

Lemma get_file_server_error_witness :
  (fst (get_file no_peers {| net := net_hello; order := in_order |} "x.txt"
          empty_world) = Raise ValueError /\
   handler_status
     (fst (get_file no_peers {| net := net_hello; order := in_order |} "x.txt"
             empty_world)) = 500 /\
   500 <= handler_status
            (fst (get_file no_peers {| net := net_hello; order := in_order |} "x.txt"
                    empty_world)) < 600) /\
  (fst (get_file slow_peer {| net := net_timeout; order := reversed |} "x.txt"
          empty_world) = Raise TimeoutError /\
   handler_status
     (fst (get_file slow_peer {| net := net_timeout; order := reversed |} "x.txt"
             empty_world)) = 504 /\
   500 <= handler_status
            (fst (get_file slow_peer {| net := net_timeout; order := reversed |} "x.txt"
                    empty_world)) < 600).
Proof.
  split.
  - apply (get_file_server_error no_peers {| net := net_hello; order := in_order |}
             "x.txt" empty_world); [reflexivity | left; reflexivity].
  - apply (get_file_server_error slow_peer {| net := net_timeout; order := reversed |}
             "x.txt" empty_world); [reflexivity | right].
    simpl. intros node [<-|[]]. reflexivity.
Defined.

(** One peer times out, another has the file: the timeout still ends the
    request when its task is visited first. *)
Example timeout_hides_good_peer :
  get_file slow_and_good {| net := net_timeout; order := in_order |} "x.txt"
    empty_world =
    (Raise TimeoutError,
     log_sent [peer_url "c:3" "x.txt"; peer_url "b:2" "x.txt"] empty_world).
Proof. reflexivity. Qed.

(** ** Empty files *)

(** A stored file of length zero is reported as missing by the local
    lookup. *)
Lemma get_local_empty_file (self : StorageServer) (file_name : string) (w : world) :
  files w !! os_path_join (directory self) file_name = Some [] ->
  get_local self file_name w = (Raise HTTPNotFound, w).
Proof. intros Hfile. rewrite get_local_run. unfold stored. by rewrite Hfile. Qed.

(** [get_file] then goes on to the peers, exactly as for an absent file. *)
Lemma get_file_empty_file_falls_back
    (self : StorageServer) (E : environment) (file_name : string) (w : world) :
  files w !! os_path_join (directory self) file_name = Some [] ->
  get_file self E file_name w =
  match _get_file_content_from_nodes self E file_name w with
  | (Raise e, w1) => (Raise e, w1)
  | (Return content, w1) =>
      if py_not content then (Raise HTTPNotFound, w1)
      else (Return (_construct_file_response file_name content),
            if save_file self
            then log_thread (save_thread self file_name content) w1
            else w1)
  end.
Proof.
  intros Hfile. apply get_file_local_miss. unfold stored. by rewrite Hfile.
Qed.

(** Empty bytes selected from a peer count as a miss. *)
Lemma get_file_empty_selection
    (self : StorageServer) (E : environment) (file_name : string) (w : world) :
  py_not (stored self file_name w) = true ->
  fst (_get_file_content_from_nodes self E file_name w) = Return (PyBytes []) ->
  fst (get_file self E file_name w) = Raise HTTPNotFound.
Proof.
  intros Hlocal Hsel. rewrite get_file_local_miss by done.
  destruct (_get_file_content_from_nodes self E file_name w) as [[c|e] w1];
    simpl in Hsel; [|done].
  injection Hsel as ->. done.
Qed.

(** C10. What the code does with a local file of length zero and no peer
    configured: the local lookup reports the file as missing, and
    GET /{file_name} goes on to the fallback, where the [ValueError] of
    [asyncio.wait] ends the request as a server error instead of 404. *)
Theorem empty_file_without_peers
    (self : StorageServer) (E : environment) (file_name : string) (w : world) :
  nodes self = [] ->
  files w !! os_path_join (directory self) file_name = Some [] ->
  get_local self file_name w = (Raise HTTPNotFound, w) /\
  handler_status (fst (get_local self file_name w)) = 404 /\
  get_file self E file_name w = (Raise ValueError, w) /\
  handler_status (fst (get_file self E file_name w)) = 500.
Proof.
  intros Hns Hfile.
  rewrite get_local_empty_file by done.
  rewrite get_file_no_peers; [done|done|].
  unfold stored. by rewrite Hfile.
Qed.

Lemma empty_file_without_peers_witness :
  get_local no_peers "e.txt" (world_with "files/e.txt" []) =
    (Raise HTTPNotFound, world_with "files/e.txt" []) /\
  handler_status (fst (get_local no_peers "e.txt" (world_with "files/e.txt" []))) = 404 /\
  get_file no_peers {| net := net_down; order := in_order |} "e.txt"
    (world_with "files/e.txt" []) = (Raise ValueError, world_with "files/e.txt" []) /\
  handler_status
    (fst (get_file no_peers {| net := net_down; order := in_order |} "e.txt"
            (world_with "files/e.txt" []))) = 500.
Proof.
  apply (empty_file_without_peers no_peers {| net := net_down; order := in_order |}
           "e.txt" (world_with "files/e.txt" [])); reflexivity.
Defined.

(** The same requests through the routing table. *)
Example empty_file_without_peers_routed :
  served_status
    (fst (run no_peers {| net := net_down; order := in_order |}
            {| req_method := GET; req_path := ["from_node"; "e.txt"] |}
            (world_with "files/e.txt" []))) = 404 /\
  served_status
    (fst (run no_peers {| net := net_down; order := in_order |}
            {| req_method := GET; req_path := ["e.txt"] |}
            (world_with "files/e.txt" []))) = 500.
Proof. split; reflexivity. Qed.

(** ** Where a served body comes from *)

(** Content that is not falsy and was read from the directory is a stored,
    non-empty [bytes] object. *)
Lemma stored_truthy (self : StorageServer) (file_name : string) (w : world) :
  py_not (stored self file_name w) = false ->
  exists bs, bs <> [] /\
             files w !! os_path_join (directory self) file_name = Some bs /\
             stored self file_name w = PyBytes bs.
Proof.
  unfold stored.
  destruct (files w !! os_path_join (directory self) file_name) as [[|x bs]|];
    [done| |done].
  intros _. by exists (x :: bs).
Qed.

(** X1. Whatever [get_file] answers with a response has status 200, the
    download headers for the requested name and a non-empty [bytes] body;
    the body is the content stored under that name, or, after a local miss,
    the body of a 200 reply of one of the configured peers.  Neither [None],
    nor empty bytes, nor the placeholder string of a failed connection is
    ever served. *)
Theorem get_file_response_provenance
    (self : StorageServer) (E : environment) (file_name : string) (w : world)
    (resp : Response) :
  fst (get_file self E file_name w) = Return resp ->
  exists B : list byte,
    B <> [] /\
    resp = _construct_file_response file_name (PyBytes B) /\
    status resp = 200 /\
    (files w !! os_path_join (directory self) file_name = Some B \/
     (fst (get_local self file_name w) = Raise HTTPNotFound /\
      exists node, In node (nodes self) /\
                   net E (peer_url node file_name) = Responded 200 B)).
Proof.
  intros Hget.
  destruct (py_not (stored self file_name w)) eqn:Hlocal.
  - rewrite get_file_local_miss in Hget by done.
    destruct (nodes self) as [|n ns] eqn:Hns.
    { by rewrite coordinator_empty in Hget. }
    rewrite coordinator_run in Hget by (by rewrite Hns).
    destruct (scan (done_tasks self E file_name)) as [c|e] eqn:Hscan; [|done].
    destruct (py_not c) eqn:Hc; [done|].
    simpl in Hget. injection Hget as <-.
    destruct (selected_content self E file_name c Hscan)
      as [->|(node & bs & Hin & Hnet & ->)]; [done|].
    exists bs. repeat split; try done.
    + by destruct bs.
    + right. split.
      * rewrite get_local_run. simpl. by rewrite Hlocal.
      * exists node. by rewrite <- Hns.
  - rewrite get_file_local_hit in Hget by done. simpl in Hget.
    injection Hget as <-.
    destruct (stored_truthy self file_name w Hlocal) as (bs & Hbs & Hfile & ->).
    exists bs. repeat split; try done. by left.
Qed.

Lemma get_file_response_provenance_witness :
  exists B : list byte,
    B <> [] /\
    _construct_file_response "x.txt" (PyBytes (b "hello")) =
      _construct_file_response "x.txt" (PyBytes B) /\
    status (_construct_file_response "x.txt" (PyBytes (b "hello"))) = 200 /\
    (files empty_world !! os_path_join (directory two_peers) "x.txt" = Some B \/
     (fst (get_local two_peers "x.txt" empty_world) = Raise HTTPNotFound /\
      exists node, In node (nodes two_peers) /\
                   net {| net := net_hello; order := reversed |}
                     (peer_url node "x.txt") = Responded 200 B)).
Proof.
  apply (get_file_response_provenance two_peers
           {| net := net_hello; order := reversed |} "x.txt" empty_world
           (_construct_file_response "x.txt" (PyBytes (b "hello")))).
  reflexivity.
Defined.

(** ** Total miss and absorbed failures *)

(** A peer that answers with a status other than 200, or refuses the
    connection, yields an outcome that the scan passes over. *)
Lemma missed_outcome (E : environment) (node file_name : string) :
  (exists st bs, net E (peer_url node file_name) = Responded st bs /\ st <> 200) \/
  net E (peer_url node file_name) = Failed ClientConnectorError ->
  exists o, peer_outcome E node file_name = Return o /\ is_found o = false.
Proof.
  unfold peer_outcome, is_found.
  intros [(st & bs & -> & Hst)| ->]; eexists; (split; [done|]); simpl.
  - by apply Z.eqb_neq.
  - done.
Qed.

(** X2. After a local miss with at least one peer configured, when every
    peer answers with a status other than 200 (404, 500, a redirect, ...) or
    refuses the connection, [get_file] raises [HTTPNotFound], the client
    sees 404, one request per peer has been sent and no thread is started,
    caching enabled or not. *)
Theorem get_file_total_miss_404
    (self : StorageServer) (E : environment) (file_name : string) (w : world) :
  fst (get_local self file_name w) = Raise HTTPNotFound ->
  nodes self <> [] ->
  (forall node, In node (nodes self) ->
     (exists st bs, net E (peer_url node file_name) = Responded st bs /\ st <> 200) \/
     net E (peer_url node file_name) = Failed ClientConnectorError) ->
  fst (get_file self E file_name w) = Raise HTTPNotFound /\
  handler_status (fst (get_file self E file_name w)) = 404 /\
  files (snd (get_file self E file_name w)) = files w /\
  threads (snd (get_file self E file_name w)) = threads w /\
  sent (snd (get_file self E file_name w)) =
    (sent w ++ map (fun node => peer_url node file_name) (nodes self))%list.
Proof.
  intros Hlocal Hne Hmiss. apply get_local_miss_inv in Hlocal.
  rewrite get_file_local_miss, coordinator_run by done.
  assert (Hscan : scan (done_tasks self E file_name) = Return PyNone).
  { assert (Hall : Forall (fun t => exists o, t = Return o /\ is_found o = false)
                     (done_tasks self E file_name)).
    { apply List.Forall_forall. intros t Ht.
      apply (Permutation_in _ (done_tasks_perm self E file_name)) in Ht.
      unfold fallback_tasks in Ht. apply in_map_iff in Ht as (node & <- & Hin).
      apply missed_outcome. by apply Hmiss. }
    induction Hall as [|t rest (o & -> & Ho) _ IH]; simpl; [done|].
    by rewrite Ho. }
  rewrite Hscan. done.
Qed.

Lemma get_file_total_miss_404_witness :
  fst (get_file one_peer {| net := net_hello; order := in_order |} "x.txt"
         empty_world) = Raise HTTPNotFound /\
  handler_status
    (fst (get_file one_peer {| net := net_hello; order := in_order |} "x.txt"
            empty_world)) = 404 /\
  files (snd (get_file one_peer {| net := net_hello; order := in_order |} "x.txt"
                empty_world)) = files empty_world /\
  threads (snd (get_file one_peer {| net := net_hello; order := in_order |} "x.txt"
                  empty_world)) = threads empty_world /\
  sent (snd (get_file one_peer {| net := net_hello; order := in_order |} "x.txt"
               empty_world)) =
    (sent empty_world ++ map (fun node => peer_url node "x.txt") (nodes one_peer))%list.
Proof.
  apply (get_file_total_miss_404 one_peer {| net := net_hello; order := in_order |}
           "x.txt" empty_world).
  - reflexivity.
  - simpl. discriminate.
  - simpl. intros node [<-|[]]. left. exists 404, (b "404: Not Found").
    split; [reflexivity|discriminate].
Defined.

(** X3. With at least one peer configured, when the local lookup answers
    or raises [HTTPNotFound] and no peer's request fails with anything but a
    refused connection, the client of [get_file] sees 200 or 404, whatever
    the statuses and bodies of the replies and whatever order the finished
    tasks are visited in. *)
Theorem refused_connections_are_absorbed
    (self : StorageServer) (E : environment) (file_name : string) (w : world) :
  (exists resp, fst (get_local self file_name w) = Return resp) \/
  fst (get_local self file_name w) = Raise HTTPNotFound ->
  nodes self <> [] ->
  (forall node e, In node (nodes self) ->
                  net E (peer_url node file_name) = Failed e ->
                  e = ClientConnectorError) ->
  handler_status (fst (get_file self E file_name w)) = 200 \/
  handler_status (fst (get_file self E file_name w)) = 404.
Proof.
  intros _ Hne Hfail.
  destruct (py_not (stored self file_name w)) eqn:Hlocal.
  - rewrite get_file_local_miss, coordinator_run by done.
    assert (Hall : forall node, In node (nodes self) ->
                     exists o, peer_outcome E node file_name = Return o).
    { intros node Hin. apply peer_outcome_returns. intros e He. by eapply Hfail. }
    destruct (done_tasks_returned self E file_name Hall) as (outcomes & -> & _).
    rewrite scan_returned.
    destruct (py_not (first_found outcomes)); [by right|by left].
  - rewrite get_file_local_hit by done. by left.
Qed.

Lemma refused_connections_are_absorbed_witness :
  handler_status
    (fst (get_file two_peers {| net := net_down; order := reversed |} "x.txt"
            empty_world)) = 200 \/
  handler_status
    (fst (get_file two_peers {| net := net_down; order := reversed |} "x.txt"
            empty_world)) = 404.
Proof.
  apply (refused_connections_are_absorbed two_peers
           {| net := net_down; order := reversed |} "x.txt" empty_world).
  - right. reflexivity.
  - simpl. discriminate.
  - intros node e _. unfold net_down. simpl. intros [= <-]. reflexivity.
Defined.

(** X4. The requests that [get_file] sends: none when the local lookup
    answers or fails with anything but [HTTPNotFound], and after a local
    miss one per configured peer, each to the peer's
    [/from_node/{file_name}] path, whether or not a fetch fails or another
    one already succeeded.  Nothing is said of the order among them. *)
Theorem get_file_requests_sent
    (self : StorageServer) (E : environment) (file_name : string) (w : world) :
  exists issued : list url,
    sent (snd (get_file self E file_name w)) = (sent w ++ issued)%list /\
    Permutation issued
      match fst (get_local self file_name w) with
      | Return _ => []
      | Raise e =>
          if is_HTTPNotFound e
          then map (fun node => Url node ["from_node"; file_name]) (nodes self)
          else []
      end.
Proof.
  rewrite get_local_run. simpl.
  destruct (py_not (stored self file_name w)) eqn:Hlocal.
  - exists (fallback_urls self file_name). split; [|done].
    rewrite get_file_local_miss by done.
    destruct (nodes self) as [|n ns] eqn:Hns.
    { rewrite coordinator_empty by done. unfold fallback_urls. rewrite Hns.
      simpl. by rewrite app_nil_r. }
    rewrite coordinator_run by (by rewrite Hns).
    destruct (scan (done_tasks self E file_name)) as [c|e]; [|done].
    destruct (py_not c); [done|]. by destruct (save_file self).
  - exists []. split; [|done]. rewrite get_file_local_hit by done.
    simpl. by rewrite app_nil_r.
Qed.

(** ** The routing table *)

(** X5. For every name but [info], a file that the local-only endpoint
    GET /from_node/{file_name} serves is served by GET /{file_name} with the
    very same response, and without any effect on the world. *)
Theorem endpoints_agree_on_local_hit
    (self : StorageServer) (E : environment) (file_name : string) (w : world)
    (r : option Response) :
  String.eqb file_name "info" = false ->
  fst (run self E {| req_method := GET; req_path := ["from_node"; file_name] |} w) =
    Return r ->
  run self E {| req_method := GET; req_path := [file_name] |} w = (Return r, w).
Proof.
  intros Hname. unfold run. simpl. rewrite Hname.
  destruct (dynamic_segment file_name); simpl; [|done].
  rewrite !fmap_run, get_local_run.
  destruct (py_not (stored self file_name w)) eqn:Hlocal; simpl; [done|].
  intros [= <-]. by rewrite get_file_local_hit.
Qed.

Lemma endpoints_agree_on_local_hit_witness :
  run two_peers {| net := net_down; order := in_order |}
    {| req_method := GET; req_path := ["x.txt"] |}
    (world_with "files/x.txt" (b "mine")) =
    (Return (Some (_construct_file_response "x.txt" (PyBytes (b "mine")))),
     world_with "files/x.txt" (b "mine")).
Proof.
  apply (endpoints_agree_on_local_hit two_peers {| net := net_down; order := in_order |}
           "x.txt" (world_with "files/x.txt" (b "mine"))); reflexivity.
Defined.

(** X6. GET /info is always answered by [get_info]: status 200 and a JSON
    body with the address [host:port] and the base directory, the world
    untouched, whatever the directory holds.  A stored file named [info] is
    therefore not served by GET /{file_name}; the local-only endpoint still
    serves it. *)
Theorem info_route_shadows_file
    (self : StorageServer) (E : environment) (w : world) :
  (exists resp : Response,
      run self E {| req_method := GET; req_path := ["info"] |} w =
        (Return (Some resp), w) /\
      status resp = 200 /\
      body resp = Json [("address", host self ++ ":" ++ format_int (port self));
                        ("base_dir", directory self)]) /\
  (forall B : list byte,
      B <> [] ->
      files w !! os_path_join (directory self) "info" = Some B ->
      fst (run self E {| req_method := GET; req_path := ["from_node"; "info"] |} w) =
        Return (Some (_construct_file_response "info" (PyBytes B))) /\
      fst (run self E {| req_method := GET; req_path := ["info"] |} w) <>
        Return (Some (_construct_file_response "info" (PyBytes B)))).
Proof.
  split; [eexists; repeat split|].
  intros B HB Hfile. split; [|done].
  unfold run. simpl. rewrite fmap_run, get_local_run.
  unfold stored. rewrite Hfile. by destruct B.
Qed.

(** X7. A POST request never changes the world and never produces a
    response object: on a one-segment path the handler returns [None], any
    other path is refused by the router.  Nothing is stored by an upload. *)
Theorem post_changes_nothing
    (self : StorageServer) (E : environment) (path : list string) (w : world) :
  snd (run self E {| req_method := POST; req_path := path |} w) = w /\
  (fst (run self E {| req_method := POST; req_path := path |} w) = Return None \/
   fst (run self E {| req_method := POST; req_path := path |} w) =
     Raise HTTPMethodNotAllowed \/
   fst (run self E {| req_method := POST; req_path := path |} w) =
     Raise HTTPNotFound) /\
  served_status (fst (run self E {| req_method := POST; req_path := path |} w)) <> 200.
Proof.
  unfold run. simpl.
  destruct path as [|seg1 [|seg2 [|seg3 rest]]]; simpl; auto.
  - destruct (dynamic_segment seg1); simpl; auto.
  - destruct (String.eqb seg1 "from_node" && dynamic_segment seg2); simpl; auto.
Qed.

(** ** Requests in sequence *)

(** The response of [get_file] depends on the world through the files
    only. *)
Lemma get_file_frame
    (self : StorageServer) (E : environment) (file_name : string) (w w' : world) :
  files w' = files w ->
  fst (get_file self E file_name w') = fst (get_file self E file_name w).
Proof.
  intros Hfiles.
  assert (Hstored : stored self file_name w' = stored self file_name w).
  { unfold stored. by rewrite Hfiles. }
  destruct (py_not (stored self file_name w)) eqn:Hlocal.
  - rewrite !get_file_local_miss by (by rewrite ?Hstored).
    destruct (nodes self) as [|n ns] eqn:Hns.
    { by rewrite !coordinator_empty. }
    rewrite !coordinator_run by (by rewrite Hns).
    destruct (scan (done_tasks self E file_name)) as [c|e]; [|done].
    by destruct (py_not c).
  - rewrite !get_file_local_hit by (by rewrite ?Hstored). simpl. by rewrite Hstored.
Qed.

(** The world after a successful fallback with caching enabled. *)
Lemma fallback_success_world
    (self : StorageServer) (E : environment) (file_name : string) (w : world)
    (B : list byte) :
  save_file self = true ->
  fst (get_local self file_name w) = Raise HTTPNotFound ->
  fst (get_file self E file_name w) =
    Return (_construct_file_response file_name (PyBytes B)) ->
  B <> [] /\
  exists us, snd (get_file self E file_name w) =
             log_thread (save_thread self file_name (PyBytes B)) (log_sent us w).
Proof.
  intros Hsave Hlocal Hget. apply get_local_miss_inv in Hlocal.
  rewrite get_file_local_miss in Hget |- * by done.
  destruct (coordinator_effect self E file_name w) as [us Hw1].
  destruct (_get_file_content_from_nodes self E file_name w) as [[c|e] w1]; [|done].
  simpl in Hw1. subst w1.
  destruct (py_not c) eqn:Hc; [done|].
  simpl in Hget. injection Hget as ->.
  rewrite Hsave. simpl. split; [by destruct B|]. by exists us.
Qed.

(** X8. With caching enabled, after a request that missed locally and got
    bytes [B] from the fallback, once the thread started by that request
    has ended with its write completed, the same request is answered 200
    with body [B] from the directory alone: the world is left as it is, so
    no peer is asked, whatever the network has become. *)
Theorem second_request_served_from_cache
    (self : StorageServer) (E E' : environment) (file_name : string) (w w2 : world)
    (B : list byte) :
  save_file self = true ->
  fst (get_local self file_name w) = Raise HTTPNotFound ->
  fst (get_file self E file_name w) =
    Return (_construct_file_response file_name (PyBytes B)) ->
  Thread_finish (length (threads w)) Completed (snd (get_file self E file_name w)) =
    Some w2 ->
  threads w2 = threads w /\
  get_file self E' file_name w2 =
    (Return (_construct_file_response file_name (PyBytes B)), w2).
Proof.
  intros Hsave Hlocal Hget.
  destruct (fallback_success_world self E file_name w B Hsave Hlocal Hget)
    as (HB & us & ->).
  unfold Thread_finish. simpl.
  rewrite list_lookup_middle by done.
  intros [= <-]. simpl. split.
  - assert (Hdel : forall (l : list Thread) (t : Thread),
               delete (length l) (l ++ [t])%list = l).
    { intros l t. induction l as [|x l IH]; simpl; [done|]. by rewrite IH. }
    apply Hdel.
  - assert (Hstored : forall ts ss,
              stored self file_name
                {| files := Thread_run (save_thread self file_name (PyBytes B)) (files w);
                   threads := ts; sent := ss |} = PyBytes B).
    { intros ts ss. unfold stored, Thread_run, save_thread.
      cbn [files target_self arg_content arg_file_name].
      by rewrite save_file_then_read. }
    rewrite get_file_local_hit; rewrite Hstored; [done|by destruct B].
Qed.

Lemma second_request_served_from_cache_witness :
  threads (World {[ "files/x.txt" := b "hello" ]} []
             [peer_url "a:1" "x.txt"; peer_url "b:2" "x.txt"]) = threads empty_world /\
  get_file two_peers {| net := net_down; order := reversed |} "x.txt"
    (World {[ "files/x.txt" := b "hello" ]} []
       [peer_url "a:1" "x.txt"; peer_url "b:2" "x.txt"]) =
    (Return (_construct_file_response "x.txt" (PyBytes (b "hello"))),
     World {[ "files/x.txt" := b "hello" ]} []
       [peer_url "a:1" "x.txt"; peer_url "b:2" "x.txt"]).
Proof.
  apply (second_request_served_from_cache two_peers
           {| net := net_hello; order := in_order |}
           {| net := net_down; order := reversed |} "x.txt" empty_world
           (World {[ "files/x.txt" := b "hello" ]} []
              [peer_url "a:1" "x.txt"; peer_url "b:2" "x.txt"])
           (b "hello"));
    reflexivity.
Defined.

(** X9. With caching disabled, a request leaves files and threads as they
    were and so has no influence on a later one: whatever the network and
    the visit order of the second request are, it gets the result it would
    have got had the first request not been made, and after a local miss
    every configured peer is asked a second time. *)
Theorem uncached_request_leaves_no_trace
    (self : StorageServer) (E E' : environment) (file_name : string) (w : world) :
  save_file self = false ->
  files (snd (get_file self E file_name w)) = files w /\
  threads (snd (get_file self E file_name w)) = threads w /\
  fst (get_file self E' file_name (snd (get_file self E file_name w))) =
    fst (get_file self E' file_name w) /\
  (fst (get_local self file_name w) = Raise HTTPNotFound ->
   exists issued : list url,
     sent (snd (get_file self E' file_name (snd (get_file self E file_name w)))) =
       (sent w ++ issued)%list /\
     Permutation issued
       (map (fun node => peer_url node file_name) (nodes self)
          ++ map (fun node => peer_url node file_name) (nodes self))%list).
Proof.
  intros Hoff.
  assert (Hquiet : exists us, snd (get_file self E file_name w) = log_sent us w).
  { destruct (get_file_effect self E file_name w) as [Hq|(us & B & Hon & _)];
      [done|congruence]. }
  destruct Hquiet as [us Hw1].
  assert (Hfiles : files (snd (get_file self E file_name w)) = files w)
    by (by rewrite Hw1).
  repeat split.
  - done.
  - by rewrite Hw1.
  - by apply get_file_frame.
  - intros Hlocal. apply get_local_miss_inv in Hlocal.
    assert (Hsent : forall E0 w0, py_not (stored self file_name w0) = true ->
              sent (snd (get_file self E0 file_name w0)) =
              (sent w0 ++ fallback_urls self file_name)%list).
    { intros E0 w0 Hmiss. rewrite get_file_local_miss by done.
      destruct (nodes self) as [|n ns] eqn:Hns.
      { rewrite coordinator_empty by done. unfold fallback_urls. rewrite Hns.
        simpl. by rewrite app_nil_r. }
      rewrite coordinator_run by (by rewrite Hns).
      destruct (scan (done_tasks self E0 file_name)) as [c|e]; [|done].
      destruct (py_not c); [done|]. by destruct (save_file self). }
    exists (fallback_urls self file_name ++ fallback_urls self file_name)%list.
    split; [|done].
    rewrite Hsent.
    + rewrite Hsent by done. by rewrite <- app_assoc.
    + unfold stored. rewrite Hfiles. exact Hlocal.
Qed.

Lemma uncached_request_leaves_no_trace_witness :
  files (snd (get_file two_peers_no_cache {| net := net_divergent; order := in_order |}
                "x.txt" empty_world)) = files empty_world /\
  threads (snd (get_file two_peers_no_cache
                  {| net := net_divergent; order := in_order |} "x.txt" empty_world)) =
    threads empty_world /\
  fst (get_file two_peers_no_cache {| net := net_divergent; order := reversed |} "x.txt"
         (snd (get_file two_peers_no_cache
                 {| net := net_divergent; order := in_order |} "x.txt" empty_world))) =
    fst (get_file two_peers_no_cache {| net := net_divergent; order := reversed |}
           "x.txt" empty_world) /\
  (fst (get_local two_peers_no_cache "x.txt" empty_world) = Raise HTTPNotFound ->
   exists issued : list url,
     sent (snd (get_file two_peers_no_cache
                  {| net := net_divergent; order := reversed |} "x.txt"
                  (snd (get_file two_peers_no_cache
                          {| net := net_divergent; order := in_order |} "x.txt"
                          empty_world)))) =
       (sent empty_world ++ issued)%list /\
     Permutation issued
       (map (fun node => peer_url node "x.txt") (nodes two_peers_no_cache)
          ++ map (fun node => peer_url node "x.txt") (nodes two_peers_no_cache))%list).
Proof.
  apply (uncached_request_leaves_no_trace two_peers_no_cache
           {| net := net_divergent; order := in_order |}
           {| net := net_divergent; order := reversed |} "x.txt" empty_world).
  reflexivity.
Defined.

(** ** The visit order of the finished tasks *)

(** The finished tasks, as [get_file] sees them, are the outcomes of the
    fetches in the visit order of the environment. *)
Lemma done_tasks_unfold
    (self : StorageServer) (E : environment) (file_name : string) (w : world) :
  reorder (order E)
    (map (fun node => fst (get_from_node E node file_name w)) (nodes self)) =
  done_tasks self E file_name.
Proof.
  unfold done_tasks, fallback_tasks. f_equal. apply map_ext.
  intros node. by rewrite get_from_node_run.
Qed.

Lemma done_tasks_nonempty
    (self : StorageServer) (E : environment) (file_name : string) :
  done_tasks self E file_name <> [] -> nodes self <> [].
Proof.
  intros Hdone Hnil. apply Hdone.
  pose proof (done_tasks_perm self E file_name) as Hperm.
  unfold fallback_tasks in Hperm. rewrite Hnil in Hperm. simpl in Hperm.
  by apply Permutation_nil.
Qed.

(** Two lists of outcomes with the same members, whose found outcomes all
    carry the same content, select the same content. *)
Lemma first_found_agree (l1 l2 : list fetched) :
  (forall o, In o l1 <-> In o l2) ->
  (forall o1 o2, In o1 l1 -> In o2 l1 -> is_found o1 = true -> is_found o2 = true ->
                 content o1 = content o2) ->
  first_found l1 = first_found l2.
Proof.
  intros Hmem Hagree. unfold first_found.
  destruct (List.find is_found l1) as [o1|] eqn:Hfind1.
  - destruct (find_some _ _ Hfind1) as [Hin1 Hf1].
    destruct (first_found_exists l2 o1 (proj1 (Hmem o1) Hin1) Hf1) as [o2 Hfind2].
    rewrite Hfind2. destruct (find_some _ _ Hfind2) as [Hin2 Hf2].
    apply Hagree; try done. by apply Hmem.
  - destruct (List.find is_found l2) as [o2|] eqn:Hfind2; [|done].
    destruct (find_some _ _ Hfind2) as [Hin2 Hf2].
    pose proof (find_none _ _ Hfind1 o2 (proj2 (Hmem o2) Hin2)). congruence.
Qed.

(** X10. When no peer's request fails with anything but a refused
    connection and all the peers that answer 200 send the same bytes, the
    result of [get_file], response and world, is the same for every order in
    which the finished tasks are visited. *)
Theorem agreeing_peers_make_order_irrelevant
    (self : StorageServer) (network : url -> http_result) (ord1 ord2 : wait_order)
    (file_name : string) (w : world) :
  (forall node e, In node (nodes self) ->
                  network (peer_url node file_name) = Failed e ->
                  e = ClientConnectorError) ->
  (forall node1 node2 B1 B2,
      In node1 (nodes self) -> In node2 (nodes self) ->
      network (peer_url node1 file_name) = Responded 200 B1 ->
      network (peer_url node2 file_name) = Responded 200 B2 -> B1 = B2) ->
  get_file self {| net := network; order := ord1 |} file_name w =
  get_file self {| net := network; order := ord2 |} file_name w.
Proof.
  intros Hfail Hagree.
  set (E1 := {| net := network; order := ord1 |}).
  set (E2 := {| net := network; order := ord2 |}).
  destruct (py_not (stored self file_name w)) eqn:Hlocal;
    [|by rewrite !get_file_local_hit].
  rewrite !get_file_local_miss by done.
  destruct (nodes self) as [|n ns] eqn:Hns.
  { by rewrite !coordinator_empty. }
  assert (Hne : nodes self <> []) by (by rewrite Hns).
  rewrite <- Hns in *. rewrite !coordinator_run by done.
  assert (Hret : forall E, net E = network ->
            forall node, In node (nodes self) ->
                         exists o, peer_outcome E node file_name = Return o).
  { intros E HE node Hin. apply peer_outcome_returns. rewrite HE.
    intros e He. by eapply Hfail. }
  destruct (done_tasks_returned self E1 file_name (Hret E1 eq_refl))
    as (l1 & Hd1 & Hp1).
  destruct (done_tasks_returned self E2 file_name (Hret E2 eq_refl))
    as (l2 & Hd2 & Hp2).
  assert (Hsame : fallback_tasks self E2 file_name = fallback_tasks self E1 file_name)
    by done.
  rewrite Hsame in Hp2.
  assert (Hin_tasks : forall l o,
            Permutation (map Return l) (fallback_tasks self E1 file_name) ->
            In o l <-> In (Return o) (fallback_tasks self E1 file_name)).
  { intros l o Hp. split.
    - intros Hin. apply (Permutation_in _ Hp). by apply in_map.
    - intros Hin. apply (Permutation_in _ (Permutation_sym Hp)) in Hin.
      apply in_map_iff in Hin as (o' & [= ->] & Hin). done. }
  assert (Hscan : first_found l1 = first_found l2).
  { apply first_found_agree.
    - intros o. by rewrite (Hin_tasks l1 o Hp1), (Hin_tasks l2 o Hp2).
    - intros o1 o2 Hin1 Hin2 Hf1 Hf2.
      apply (Hin_tasks l1 o1 Hp1) in Hin1. apply (Hin_tasks l1 o2 Hp1) in Hin2.
      unfold fallback_tasks in Hin1, Hin2.
      apply in_map_iff in Hin1 as (node1 & Hout1 & Hnode1).
      apply in_map_iff in Hin2 as (node2 & Hout2 & Hnode2).
      destruct (found_outcome_from_reply E1 node1 file_name o1 Hout1 Hf1)
        as (B1 & Hnet1 & ->).
      destruct (found_outcome_from_reply E1 node2 file_name o2 Hout2 Hf2)
        as (B2 & Hnet2 & ->).
      f_equal. by apply (Hagree node1 node2). }
  rewrite Hd1, Hd2, !scan_returned, Hscan. done.
Qed.

Lemma agreeing_peers_make_order_irrelevant_witness :
  get_file two_peers {| net := net_hello; order := in_order |} "x.txt" empty_world =
  get_file two_peers {| net := net_hello; order := reversed |} "x.txt" empty_world.
Proof.
  apply (agreeing_peers_make_order_irrelevant two_peers net_hello in_order reversed
           "x.txt" empty_world).
  - simpl. intros node e [<-|[<-|[]]]; vm_compute; discriminate.
  - simpl. intros node1 node2 B1 B2 [<-|[<-|[]]] [<-|[<-|[]]]; vm_compute;
      try discriminate; intros [= <-] [= <-]; reflexivity.
Defined.

(** X11. After a local miss, when the first finished task with status 200
    that the loop visits carries no bytes, [get_file] raises [HTTPNotFound]:
    the tasks visited later are not looked at, even when one of them holds
    the file. *)
Theorem empty_reply_visited_first_hides_content
    (self : StorageServer) (E : environment) (file_name : string) (w : world)
    (misses : list fetched) (o : fetched) (rest : list (result fetched)) :
  fst (get_local self file_name w) = Raise HTTPNotFound ->
  reorder (order E)
    (map (fun node => fst (get_from_node E node file_name w)) (nodes self)) =
    (map Return misses ++ Return o :: rest)%list ->
  Forall (fun m => is_found m = false) misses ->
  is_found o = true ->
  content o = PyBytes [] ->
  fst (get_file self E file_name w) = Raise HTTPNotFound /\
  threads (snd (get_file self E file_name w)) = threads w.
Proof.
  intros Hlocal Hdone Hmiss Hfound Hempty.
  apply get_local_miss_inv in Hlocal. rewrite done_tasks_unfold in Hdone.
  assert (Hne : nodes self <> []).
  { apply (done_tasks_nonempty self E file_name). rewrite Hdone.
    by destruct misses. }
  rewrite get_file_local_miss, coordinator_run by done.
  rewrite Hdone, scan_first_found by done. by rewrite Hempty.
Qed.

Lemma empty_reply_visited_first_hides_content_witness :
  fst (get_file two_peers {| net := net_empty_first; order := in_order |} "x.txt"
         empty_world) = Raise HTTPNotFound /\
  threads (snd (get_file two_peers {| net := net_empty_first; order := in_order |}
                  "x.txt" empty_world)) = threads empty_world.
Proof.
  apply (empty_reply_visited_first_hides_content two_peers
           {| net := net_empty_first; order := in_order |} "x.txt" empty_world
           [] {| content := PyBytes []; status_code := 200 |}
           [Return {| content := PyBytes (b "hello"); status_code := 200 |}]);
    try reflexivity.
  constructor.
Defined.

(** X12. After a local miss, when a fetch that ended in an exception is
    visited before any outcome with status 200, that exception leaves
    [get_file], whatever the tasks visited later hold; no thread is started
    and the files are untouched. *)
Theorem raised_fetch_visited_first_aborts
    (self : StorageServer) (E : environment) (file_name : string) (w : world)
    (misses : list fetched) (e : exn) (rest : list (result fetched)) :
  fst (get_local self file_name w) = Raise HTTPNotFound ->
  reorder (order E)
    (map (fun node => fst (get_from_node E node file_name w)) (nodes self)) =
    (map Return misses ++ Raise e :: rest)%list ->
  Forall (fun m => is_found m = false) misses ->
  fst (get_file self E file_name w) = Raise e /\
  files (snd (get_file self E file_name w)) = files w /\
  threads (snd (get_file self E file_name w)) = threads w.
Proof.
  intros Hlocal Hdone Hmiss.
  apply get_local_miss_inv in Hlocal. rewrite done_tasks_unfold in Hdone.
  assert (Hne : nodes self <> []).
  { apply (done_tasks_nonempty self E file_name). rewrite Hdone.
    by destruct misses. }
  rewrite get_file_local_miss, coordinator_run by done.
  rewrite Hdone, scan_raised_before_found by done. done.
Qed.

Lemma raised_fetch_visited_first_aborts_witness :
  fst (get_file slow_and_good {| net := net_timeout; order := in_order |} "x.txt"
         empty_world) = Raise TimeoutError /\
  files (snd (get_file slow_and_good {| net := net_timeout; order := in_order |}
                "x.txt" empty_world)) = files empty_world /\
  threads (snd (get_file slow_and_good {| net := net_timeout; order := in_order |}
                  "x.txt" empty_world)) = threads empty_world.
Proof.
  apply (raised_fetch_visited_first_aborts slow_and_good
           {| net := net_timeout; order := in_order |} "x.txt" empty_world
           [] TimeoutError
           [Return {| content := PyBytes (b "hello"); status_code := 200 |}]);
    try reflexivity.
  constructor.
Defined.

(** ** Paths *)

(** X16. A file name that starts with a slash is used as the path itself:
    the configured directory plays no part in what the local lookup reads
    or in where [_save_file] writes. *)
Theorem absolute_name_ignores_directory
    (self self' : StorageServer) (name : string) (w : world) (content : pyval)
    (fs : gmap string (list byte)) :
  os_path_join (directory self) (String "/" name) = String "/" name /\
  get_local self (String "/" name) w = get_local self' (String "/" name) w /\
  _save_file self content (String "/" name) fs =
    _save_file self' content (String "/" name) fs.
Proof.
  assert (Hjoin : forall d, os_path_join d (String "/" name) = String "/" name).
  { intros d. unfold os_path_join. simpl. by destruct name. }
  repeat split.
  - apply Hjoin.
  - rewrite !get_local_run. unfold stored. by rewrite !Hjoin.
  - unfold _save_file. by rewrite !Hjoin.
Qed.

Lemma endswith_sep_app_sep (d : string) : endswith_sep (d ++ "/") = true.
Proof.
  induction d as [|c d IH]; [done|].
  change (String c d ++ "/") with (String c (d ++ "/")).
  destruct (d ++ "/") as [|c' rest] eqn:Hd.
  - destruct d; discriminate Hd.
  - exact IH.
Qed.

Lemma string_app_assoc (s1 s2 s3 : string) : (s1 ++ s2) ++ s3 = s1 ++ s2 ++ s3.
Proof.
  induction s1 as [|c s1 IH]; [done|].
  change (String c ((s1 ++ s2) ++ s3) = String c (s1 ++ s2 ++ s3)).
  by rewrite IH.
Qed.

(** X17. Writing the configured directory with or without a final slash
    makes no difference: both servers build the same path for every file
    name, so they read and write the same files. *)
Theorem directory_final_slash_is_irrelevant
    (self self' : StorageServer) (file_name : string) (w : world) (content : pyval)
    (fs : gmap string (list byte)) :
  directory self <> "" ->
  endswith_sep (directory self) = false ->
  directory self' = directory self ++ "/" ->
  os_path_join (directory self') file_name = os_path_join (directory self) file_name /\
  get_local self' file_name w = get_local self file_name w /\
  _save_file self' content file_name fs = _save_file self content file_name fs.
Proof.
  intros Hne Hsep Hdir.
  assert (Hjoin : os_path_join (directory self') file_name =
                  os_path_join (directory self) file_name).
  { rewrite Hdir. unfold os_path_join.
    destruct (String.prefix "/" file_name); [done|].
    rewrite endswith_sep_app_sep, orb_true_r, Hsep, orb_false_r.
    destruct (String.eqb_spec (directory self) ""); [done|].
    apply string_app_assoc. }
  repeat split.
  - done.
  - rewrite !get_local_run. unfold stored. by rewrite Hjoin.
  - unfold _save_file. by rewrite Hjoin.
Qed.

Lemma directory_final_slash_is_irrelevant_witness :
  os_path_join "files/" "x.txt" = os_path_join "files" "x.txt" /\
  get_local {| host := "localhost"; port := 8080; directory := "files/";
               nodes := []; save_file := false |} "x.txt"
    (world_with "files/x.txt" (b "mine")) =
  get_local no_peers "x.txt" (world_with "files/x.txt" (b "mine")) /\
  _save_file {| host := "localhost"; port := 8080; directory := "files/";
                nodes := []; save_file := false |} (PyBytes (b "new")) "x.txt" ∅ =
  _save_file no_peers (PyBytes (b "new")) "x.txt" ∅.
Proof.
  apply (directory_final_slash_is_irrelevant no_peers
           {| host := "localhost"; port := 8080; directory := "files/";
              nodes := []; save_file := false |} "x.txt"
           (world_with "files/x.txt" (b "mine")) (PyBytes (b "new")) ∅).
  - discriminate.
  - reflexivity.
  - reflexivity.
Defined.

(** ** Startup *)

(** X18. The main block builds the server exactly when the settings hold
    the five keys [host], [port], [directory], [neighbors] and [save_file],
    and then passes their values on unchanged, [neighbors] becoming the
    peer list; otherwise it stops with [KeyError] for the first of these
    keys, in that order, that the settings lack.  Any other key of the
    settings is ignored. *)
Theorem main_server_settings {V : Type} (settings : gmap string V) :
  (forall args : constructor_args V,
      main_server settings = Constructed args <->
      settings !! "host" = Some (kw_host args) /\
      settings !! "port" = Some (kw_port args) /\
      settings !! "directory" = Some (kw_directory args) /\
      settings !! "neighbors" = Some (kw_nodes args) /\
      settings !! "save_file" = Some (kw_save_file args)) /\
  (forall key : string,
      main_server settings = KeyError key <->
      List.find (fun k => match settings !! k with None => true | Some _ => false end)
        settings_keys = Some key) /\
  (forall (key : string) (v : V),
      ~ In key settings_keys ->
      main_server (<[key := v]> settings) = main_server settings).
Proof.
  split; [|split].
  - intros [h p d ns sf]. unfold main_server, subscript. simpl. split.
    + destruct (settings !! "host"); [|done].
      destruct (settings !! "port"); [|done].
      destruct (settings !! "directory"); [|done].
      destruct (settings !! "neighbors"); [|done].
      destruct (settings !! "save_file"); [|done].
      by intros [= -> -> -> -> ->].
    + by intros (-> & -> & -> & -> & ->).
  - intros key. unfold main_server, subscript, settings_keys. simpl.
    destruct (settings !! "host"); [|split; by intros [= ->]].
    destruct (settings !! "port"); [|split; by intros [= ->]].
    destruct (settings !! "directory"); [|split; by intros [= ->]].
    destruct (settings !! "neighbors"); [|split; by intros [= ->]].
    destruct (settings !! "save_file"); [|split; by intros [= ->]].
    split; intros; discriminate.
  - intros key v Hkey. unfold main_server, subscript.
    assert (Hother : forall k, In k settings_keys ->
                               <[key := v]> settings !! k = settings !! k).
    { intros k Hk. apply lookup_insert_ne. intros ->. done. }
    rewrite !Hother by (simpl; auto 10). done.
Qed.

Example main_server_missing_neighbors :
  main_server settings_without_neighbors = KeyError "neighbors".
Proof. reflexivity. Qed.

Example main_server_complete :
  main_server settings_complete =
  Constructed {| kw_host := SStr "localhost"; kw_port := SInt 8080;
                 kw_directory := SStr "files"; kw_nodes := SList ["a:1"];
                 kw_save_file := SBool true |}.
Proof. reflexivity. Qed.

(** ** One fetch, and the order of the peer list *)

(** X19. A fetch sends exactly one request, to the [/from_node/{file_name}]
    path of the node, and sends it once whatever comes back.  Every reply is
    handed on as an outcome with its status and bytes unchanged, an error
    status included (HTTP errors are not exceptions); a refused connection
    becomes an outcome with status 404 whose content is a string, not
    bytes. *)
Theorem get_from_node_single_request
    (E : environment) (node file_name : string) (w : world) :
  files (snd (get_from_node E node file_name w)) = files w /\
  threads (snd (get_from_node E node file_name w)) = threads w /\
  sent (snd (get_from_node E node file_name w)) =
    (sent w ++ [Url node ["from_node"; file_name]])%list /\
  (forall (st : Z) (bs : list byte),
      net E (Url node ["from_node"; file_name]) = Responded st bs ->
      fst (get_from_node E node file_name w) =
        Return {| content := PyBytes bs; status_code := st |}) /\
  (net E (Url node ["from_node"; file_name]) = Failed ClientConnectorError ->
   fst (get_from_node E node file_name w) =
     Return {| content := PyStr "404: Not Found"; status_code := 404 |}).
Proof.
  rewrite get_from_node_run. unfold peer_outcome, peer_url. simpl.
  repeat split; try done.
  - by intros st bs ->.
  - by intros ->.
Qed.

(** The response of [get_file] is a function of the stored content, of
    whether a peer is configured and of the scan of the finished tasks. *)
Lemma get_file_response
    (self : StorageServer) (E : environment) (file_name : string) (w : world) :
  fst (get_file self E file_name w) =
  if py_not (stored self file_name w) then
    match nodes self with
    | [] => Raise ValueError
    | _ =>
        match scan (done_tasks self E file_name) with
        | Return c => if py_not c then Raise HTTPNotFound
                      else Return (_construct_file_response file_name c)
        | Raise e => Raise e
        end
    end
  else Return (_construct_file_response file_name (stored self file_name w)).
Proof.
  destruct (py_not (stored self file_name w)) eqn:Hlocal;
    [|by rewrite get_file_local_hit].
  rewrite get_file_local_miss by done.
  destruct (nodes self) as [|n ns] eqn:Hns.
  { by rewrite coordinator_empty. }
  rewrite coordinator_run by (by rewrite Hns).
  destruct (scan (done_tasks self E file_name)) as [c|e]; [|done].
  by destruct (py_not c).
Qed.

(** X20. The order in which the peers are listed gives no peer priority:
    every response that [get_file] can give with a peer list, it can give
    with any rearrangement of that list, under a suitable visit order of the
    finished tasks. *)
Theorem peer_list_order_gives_no_priority
    (self : StorageServer) (E : environment) (file_name : string) (w : world)
    (nodes' : list string) :
  Permutation nodes' (nodes self) ->
  exists ord' : wait_order,
    fst (get_file {| host := host self; port := port self;
                     directory := directory self; nodes := nodes';
                     save_file := save_file self |}
           {| net := net E; order := ord' |} file_name w) =
    fst (get_file self E file_name w).
Proof.
  intros Hperm.
  set (self' := {| host := host self; port := port self;
                   directory := directory self; nodes := nodes';
                   save_file := save_file self |}).
  assert (Htasks : Permutation (done_tasks self E file_name)
                     (map (fun node => peer_outcome E node file_name) nodes')).
  { etrans; [apply done_tasks_perm|]. unfold fallback_tasks.
    apply Permutation_map. by symmetry. }
  destruct (every_rearrangement_is_an_order _ _ Htasks) as [ord' Hord].
  exists ord'. rewrite !get_file_response.
  assert (Hdone : done_tasks self' {| net := net E; order := ord' |} file_name =
                  done_tasks self E file_name) by exact Hord.
  rewrite Hdone.
  assert (Hstored : stored self' file_name w = stored self file_name w) by done.
  rewrite Hstored.
  destruct (py_not (stored self file_name w)); [|done].
  change (nodes self') with nodes'.
  destruct nodes' as [|n' ns'], (nodes self) as [|n ns]; try done.
  - by apply Permutation_nil_cons in Hperm.
  - symmetry in Hperm. by apply Permutation_nil_cons in Hperm.
Qed.

Lemma peer_list_order_gives_no_priority_witness :
  exists ord' : wait_order,
    fst (get_file {| host := host two_peers; port := port two_peers;
                     directory := directory two_peers; nodes := ["b:2"; "a:1"];
                     save_file := save_file two_peers |}
           {| net := net_divergent; order := ord' |} "x.txt" empty_world) =
    fst (get_file two_peers {| net := net_divergent; order := in_order |} "x.txt"
           empty_world).
Proof.
  apply (peer_list_order_gives_no_priority two_peers
           {| net := net_divergent; order := in_order |} "x.txt" empty_world
           ["b:2"; "a:1"]).
  simpl. apply perm_swap.
Defined.
